(** * The LinkedIn OIDC provider of kratos

    A shallow embedding of
    [selfservice/strategy/oidc/provider_linkedin.go] and the properties
    of its operations [Config], [OAuth2], [AuthCodeURLOptions],
    [Profile], [ProfileLocale] and [Claims].

    Go values are modelled as follows.
    - A Go [string] is a [string] (a sequence of bytes).
    - A pointer that the code compares with [nil], or gets from a call
      and dereferences, is an [option]; dereferencing [None] panics.
      The receiver [l] and [l.config] are taken to point at their
      objects: providers are constructed from a loaded configuration.
    - A Go result pair [(v, err)] is a pair whose second component is an
      [option error] ([None] is the [nil] error).
    - Effects (reading the receiver, tracing spans, the HTTP round trip,
      reading the body, logging) are commands of a small program monad,
      executed against a world that holds the receiver object and the
      trace of what happened. *)

From Stdlib Require Import String Ascii List ZArith Bool Lia.
Import ListNotations.
Open Scope string_scope.
Set Warnings "-register-all".

(** ** JSON values, as [encoding/json] sees a response body *)

Module JSON.

Inductive json : Type :=
| Null
| Bool (b : bool)
| Number (literal : string)
| Str (s : string)
| Array (items : list json)
| Object (members : list (string * json)).

(** The word [encoding/json] uses for a value in an
    [UnmarshalTypeError]. *)
Inductive Kind : Type := KNull | KBool | KNumber | KString | KArray | KObject.

Definition kindOf (v : json) : Kind :=
  match v with
  | Null => KNull
  | Bool _ => KBool
  | Number _ => KNumber
  | Str _ => KString
  | Array _ => KArray
  | Object _ => KObject
  end.

(** The Go type a JSON value was to be stored in. *)
Inductive GoType : Type := GoString | GoBool | GoStruct.

Inductive DecodeError : Type :=
| SyntaxError (msg : string)
| UnmarshalTypeError (value : Kind) (field : string) (target : GoType).

(** What [json.NewDecoder(body).Decode] finds on the stream: either one
    well-formed JSON value, or input that is not a JSON value (empty,
    truncated, not JSON at all), with the decoder's message. *)
Inductive Body : Type :=
| Value (v : json)
| Malformed (msg : string).

(** Only the first error of a decode is kept ([decodeState.saveError]). *)
Definition saveError (old new : option DecodeError) : option DecodeError :=
  match old with
  | Some _ => old
  | None => new
  end.

Definition lowerAscii (c : ascii) : ascii :=
  let n := nat_of_ascii c in
  if (65 <=? n)%nat && (n <=? 90)%nat then ascii_of_nat (n + 32) else c.

Definition isByte (n : nat) (c : ascii) : bool := (nat_of_ascii c =? n)%nat.

(** Object keys are matched with struct tags up to case folding.  Over
    tags made of ASCII letters that is: ASCII letters regardless of
    case, the long s (U+017F, bytes C5 BF) as [s] and the Kelvin sign
    (U+212A, bytes E2 84 AA) as [k]. *)
Fixpoint foldName (s : string) : string :=
  match s with
  | EmptyString => EmptyString
  | String c1 r1 =>
    match r1 with
    | String c2 r2 =>
      if isByte 197 c1 && isByte 191 c2 then String "s" (foldName r2)
      else
        match r2 with
        | String c3 r3 =>
          if isByte 226 c1 && isByte 132 c2 && isByte 170 c3
          then String "k" (foldName r3)
          else String (lowerAscii c1) (foldName r1)
        | EmptyString => String (lowerAscii c1) (foldName r1)
        end
    | EmptyString => String (lowerAscii c1) (foldName r1)
    end
  end.

Definition keyIs (tag key : string) : bool :=
  String.eqb (foldName key) (foldName tag).

(** Storing a JSON value in a field of type [string]: a JSON string is
    stored, [null] leaves the field as it is, anything else is a type
    error and leaves the field as it is. *)
Definition storeString (field : string) (v : json) (old : string)
  : string * option DecodeError :=
  match v with
  | Str s => (s, None)
  | Null => (old, None)
  | _ => (old, Some (UnmarshalTypeError (kindOf v) field GoString))
  end.

(** Storing a JSON value in a field of type [bool]. *)
Definition storeBool (field : string) (v : json) (old : bool)
  : bool * option DecodeError :=
  match v with
  | Bool b => (b, None)
  | Null => (old, None)
  | _ => (old, Some (UnmarshalTypeError (kindOf v) field GoBool))
  end.

(** A destination shape of [Decode]: how a JSON value is stored in a Go
    value of type [T] that already holds [old]. *)
Class Unmarshal (T : Type) : Type :=
  unmarshal : json -> T -> T * option DecodeError.

(** [json.NewDecoder(body).Decode(&result)]. *)
Definition Decode {T : Type} `{Unmarshal T} (body : Body) (result : T)
  : T * option DecodeError :=
  match body with
  | Malformed msg => (result, Some (SyntaxError msg))
  | Value v => unmarshal v result
  end.

End JSON.

(** ** Errors *)

(** [herodot.DefaultError], with the fields this file reads or sets. *)
Record DefaultError : Type := {
  CodeField : Z;
  StatusField : string;
  ErrorField : string;
  ReasonField : string
}.

(** [e.WithReasonf("%s", ...)] sets the reason and keeps the rest. *)
Definition WithReason (e : DefaultError) (reason : string) : DefaultError :=
  {| CodeField := CodeField e;
     StatusField := StatusField e;
     ErrorField := ErrorField e;
     ReasonField := reason |}.

(** The [error] values that travel through this file. *)
Inductive error : Type :=
| ErrTransport (msg : string)
  (* from [retryablehttp.NewRequestWithContext] or [client.Do] *)
| ErrDecode (e : JSON.DecodeError)
  (* from [json.Decoder.Decode] *)
| ErrUpstream (status : Z)
  (* from [logUpstreamError] *)
| ErrHerodot (e : DefaultError)
| WithStack (cause : error).
  (* [errors.WithStack] *)

(** The class of a failure in the error taxonomy of the specification
    (upstream unavailable, upstream status, malformed upstream response,
    internal error), looking through the stack annotations. *)
Inductive ErrorClass : Type :=
| UpstreamUnavailable
| UpstreamStatus
| MalformedUpstreamResponse
| InternalServerError.

Fixpoint classify (e : error) : ErrorClass :=
  match e with
  | ErrTransport _ => UpstreamUnavailable
  | ErrDecode _ => MalformedUpstreamResponse
  | ErrUpstream _ => UpstreamStatus
  | ErrHerodot _ => InternalServerError
  | WithStack cause => classify cause
  end.

(** The [herodot] error at the bottom of a chain, if there is one. *)
Fixpoint herodotOf (e : error) : option DefaultError :=
  match e with
  | ErrHerodot d => Some d
  | WithStack cause => herodotOf cause
  | _ => None
  end.

(** ** The data of the provider *)

(** The anonymous struct behind [LinkedInProfile.Locale]. *)
Record LinkedInLocale : Type := {
  Lanuguage : string  (* json:"language" *)
}.

Record LinkedInProfile : Type := {
  LocalizedLastName : string;       (* json:"family_name" *)
  LocalizedFirstName : string;      (* json:"given_name" *)
  ProfilePicture : string;          (* json:"picture" *)
  EmailAddress : string;            (* json:"email" *)
  EmailVerified : bool;             (* json:"email_verified" *)
  ID : string;                      (* json:"sub" *)
  Locale : option LinkedInLocale    (* json:"locale,omitempty" *)
}.

(** [var result LinkedInProfile]: every field at its zero value. *)
Definition zeroProfile : LinkedInProfile :=
  {| LocalizedLastName := "";
     LocalizedFirstName := "";
     ProfilePicture := "";
     EmailAddress := "";
     EmailVerified := false;
     ID := "";
     Locale := None |}.

Definition zeroLocale : LinkedInLocale := {| Lanuguage := "" |}.

Definition ProfileUrl : string := "https://api.linkedin.com/v2/userinfo".
Definition IntrospectionURL : string :=
  "https://www.linkedin.com/oauth/v2/introspectToken".

(** [x.ConvertibleBoolean] is a named [bool]; the conversion
    [x.ConvertibleBoolean(b)] of a [bool] keeps the value. *)
Definition ConvertibleBoolean : Type := bool.
Definition toConvertibleBoolean (b : bool) : ConvertibleBoolean := b.

(** The canonical [Claims], with the fields [Claims] of this provider
    sets; the others stay at their zero value. *)
Record Claims : Type := {
  Subject : string;
  Issuer : string;
  Email : string;
  GivenName : string;
  LastName : string;
  Picture : string;
  ClaimsEmailVerified : ConvertibleBoolean;
  ClaimsLocale : string
}.

(** [Configuration], with the fields this provider reads. *)
Record Configuration : Type := {
  ClientID : string;
  ClientSecret : string;
  Scope : list string
}.

(** [oauth2.Endpoint] and [oauth2.Config]. *)
Record Endpoint : Type := {
  AuthURL : string;
  TokenURL : string
}.

Record OAuth2Config : Type := {
  OAuth2ClientID : string;
  OAuth2ClientSecret : string;
  OAuth2Endpoint : Endpoint;
  OAuth2Scopes : list string;
  OAuth2RedirectURL : string
}.

(** A [*url.URL], by its text. *)
Definition URL : Type := string.

(** *** Decoding a profile

    [encoding/json] walks the members of the object in order; a member
    whose key matches no tag is skipped; a later member overwrites an
    earlier one; a type error is recorded and the walk goes on. *)

Definition decodeLocaleMember (st : LinkedInLocale * option JSON.DecodeError)
  (kv : string * JSON.json) : LinkedInLocale * option JSON.DecodeError :=
  let '(loc, err) := st in
  let '(k, v) := kv in
  if JSON.keyIs "language" k then
    let '(s, e) := JSON.storeString "locale.language" v (Lanuguage loc) in
    ({| Lanuguage := s |}, JSON.saveError err e)
  else (loc, err).

(** The field [Locale] is a pointer to a struct: [null] sets it to
    [nil]; for any other value a [nil] pointer is first pointed at a
    fresh zero struct, into which an object is then decoded. *)
Definition storeLocale (v : JSON.json) (old : option LinkedInLocale)
  : option LinkedInLocale * option JSON.DecodeError :=
  let target := match old with Some loc => loc | None => zeroLocale end in
  match v with
  | JSON.Null => (None, None)
  | JSON.Object members =>
    let '(loc, e) := fold_left decodeLocaleMember members (target, None) in
    (Some loc, e)
  | _ =>
    (Some target,
     Some (JSON.UnmarshalTypeError (JSON.kindOf v) "locale" JSON.GoStruct))
  end.

Definition decodeProfileMember
  (st : LinkedInProfile * option JSON.DecodeError)
  (kv : string * JSON.json) : LinkedInProfile * option JSON.DecodeError :=
  let '(p, err) := st in
  let '(k, v) := kv in
  if JSON.keyIs "family_name" k then
    let '(s, e) := JSON.storeString "family_name" v (LocalizedLastName p) in
    ({| LocalizedLastName := s;
        LocalizedFirstName := LocalizedFirstName p;
        ProfilePicture := ProfilePicture p;
        EmailAddress := EmailAddress p;
        EmailVerified := EmailVerified p;
        ID := ID p;
        Locale := Locale p |}, JSON.saveError err e)
  else if JSON.keyIs "given_name" k then
    let '(s, e) := JSON.storeString "given_name" v (LocalizedFirstName p) in
    ({| LocalizedLastName := LocalizedLastName p;
        LocalizedFirstName := s;
        ProfilePicture := ProfilePicture p;
        EmailAddress := EmailAddress p;
        EmailVerified := EmailVerified p;
        ID := ID p;
        Locale := Locale p |}, JSON.saveError err e)
  else if JSON.keyIs "picture" k then
    let '(s, e) := JSON.storeString "picture" v (ProfilePicture p) in
    ({| LocalizedLastName := LocalizedLastName p;
        LocalizedFirstName := LocalizedFirstName p;
        ProfilePicture := s;
        EmailAddress := EmailAddress p;
        EmailVerified := EmailVerified p;
        ID := ID p;
        Locale := Locale p |}, JSON.saveError err e)
  else if JSON.keyIs "email" k then
    let '(s, e) := JSON.storeString "email" v (EmailAddress p) in
    ({| LocalizedLastName := LocalizedLastName p;
        LocalizedFirstName := LocalizedFirstName p;
        ProfilePicture := ProfilePicture p;
        EmailAddress := s;
        EmailVerified := EmailVerified p;
        ID := ID p;
        Locale := Locale p |}, JSON.saveError err e)
  else if JSON.keyIs "email_verified" k then
    let '(b, e) := JSON.storeBool "email_verified" v (EmailVerified p) in
    ({| LocalizedLastName := LocalizedLastName p;
        LocalizedFirstName := LocalizedFirstName p;
        ProfilePicture := ProfilePicture p;
        EmailAddress := EmailAddress p;
        EmailVerified := b;
        ID := ID p;
        Locale := Locale p |}, JSON.saveError err e)
  else if JSON.keyIs "sub" k then
    let '(s, e) := JSON.storeString "sub" v (ID p) in
    ({| LocalizedLastName := LocalizedLastName p;
        LocalizedFirstName := LocalizedFirstName p;
        ProfilePicture := ProfilePicture p;
        EmailAddress := EmailAddress p;
        EmailVerified := EmailVerified p;
        ID := s;
        Locale := Locale p |}, JSON.saveError err e)
  else if JSON.keyIs "locale" k then
    let '(l, e) := storeLocale v (Locale p) in
    ({| LocalizedLastName := LocalizedLastName p;
        LocalizedFirstName := LocalizedFirstName p;
        ProfilePicture := ProfilePicture p;
        EmailAddress := EmailAddress p;
        EmailVerified := EmailVerified p;
        ID := ID p;
        Locale := l |}, JSON.saveError err e)
  else (p, err).

(** A struct takes an object; [null] leaves it as it is; any other
    value is a type error. *)
#[export] Instance unmarshalProfile : JSON.Unmarshal LinkedInProfile :=
  fun v old =>
    match v with
    | JSON.Null => (old, None)
    | JSON.Object members => fold_left decodeProfileMember members (old, None)
    | _ => (old, Some (JSON.UnmarshalTypeError (JSON.kindOf v) "" JSON.GoStruct))
    end.

(** ** The services around the provider *)

(** Types of the libraries the provider is written against; the code
    only passes their values on. *)
Class Types : Type := {
  Context : Type;         (* context.Context *)
  Token : Type;           (* oauth2.Token *)
  Values : Type;          (* url.Values *)
  Ider : Type;            (* the request handed to AuthCodeURLOptions *)
  AuthCodeOption : Type   (* oauth2.AuthCodeOption *)
}.

Section Services.

Context {TY : Types}.

Record Request : Type := {
  Method : string;
  RequestURL : string;
  RequestContext : Context
}.

Record Response : Type := {
  StatusCode : Z;
  ResponseBody : JSON.Body
}.

(** What one call of [client.Do] comes back with: the error or the
    response it hands to the caller, and the number of HTTP attempts
    the retrying client made to get there (one, plus its retries). *)
Record DoResult : Type := {
  attempts : nat;
  outcome : error + Response
}.

(** A [*retryablehttp.Client]. *)
Record Client : Type := {
  Do : Request -> DoResult
}.

(** The [Dependencies] behind [l.reg]. *)
Record Dependencies : Type := {
  (* reg.Config().OIDCRedirectURIBase(ctx) *)
  OIDCRedirectURIBase : Context -> URL;
  (* reg.HTTPClient(ctx) *)
  HTTPClient : Context -> Client;
  (* the context returned by reg.Tracer(ctx).Tracer().Start(ctx, name) *)
  TracerStart : Context -> string -> Context
}.

(** The object behind a [*ProviderLinkedIn]; [config] is the
    [Configuration] its pointer field points at. *)
Record ProviderLinkedIn : Type := {
  config : Configuration;
  reg : Dependencies
}.

(** What an execution leaves behind, in order. *)
Inductive Event : Type :=
| SpanStarted (name : string)
| SpanEnded (name : string) (err : option error)
| RoundTrip (req : Request) (tries : nat)
| UpstreamLogged (status : Z)
| BodyDecoded
| BodyClosed.

(** The world a method runs in: the object behind the receiver [l] and
    the trace so far. *)
Record World : Type := {
  self : ProviderLinkedIn;
  trace : list Event
}.

(** The effects a piece of code can have on the world: it reads the
    object behind [l], it leaves an event, or it writes the object.
    [SetConfig] stands for an assignment to [l.config] and for a write
    through the pointer [Config] returns, which leads to the same
    [Configuration]; [SetReg] is an assignment to [l.reg]. *)
Inductive Cmd : Type -> Type :=
| ReadSelf : Cmd ProviderLinkedIn
| Emit (e : Event) : Cmd unit
| SetConfig (c : Configuration) : Cmd unit
| SetReg (d : Dependencies) : Cmd unit.

Inductive Prog (A : Type) : Type :=
| Ret (a : A)
| Panic
| Vis {X : Type} (c : Cmd X) (k : X -> Prog A).

Arguments Ret {A} a.
Arguments Panic {A}.
Arguments Vis {A X} c k.

Fixpoint bind {A B : Type} (m : Prog A) (f : A -> Prog B) : Prog B :=
  match m with
  | Ret a => f a
  | Panic => Panic
  | Vis c k => Vis c (fun x => bind (k x) f)
  end.

Definition perform {X : Type} (c : Cmd X) : Prog X := Vis c Ret.

(** [defer h] around a body: [h] runs when the body returns and also
    when it panics. *)
Fixpoint defer {A : Type} (body : Prog A) (h : option A -> Prog unit)
  : Prog A :=
  match body with
  | Ret a => bind (h (Some a)) (fun _ => Ret a)
  | Panic => bind (h None) (fun _ => Panic)
  | Vis c k => Vis c (fun x => defer (k x) h)
  end.

(** Dereferencing a pointer. *)
Definition deref {A : Type} (p : option A) : Prog A :=
  match p with
  | Some a => Ret a
  | None => Panic
  end.

(** *** Running a program *)

Inductive Outcome (A : Type) : Type :=
| Done (a : A)
| Panicked.

Arguments Done {A} a.
Arguments Panicked {A}.

Definition exec {X : Type} (c : Cmd X) (w : World) : X * World :=
  match c in Cmd X return X * World with
  | ReadSelf => (self w, w)
  | Emit e => (tt, {| self := self w; trace := trace w ++ [e] |})
  | SetConfig c =>
    (tt, {| self := {| config := c; reg := reg (self w) |};
            trace := trace w |})
  | SetReg d =>
    (tt, {| self := {| config := config (self w); reg := d |};
            trace := trace w |})
  end.

Fixpoint run {A : Type} (p : Prog A) (w : World) : Outcome A * World :=
  match p with
  | Ret a => (Done a, w)
  | Panic => (Panicked, w)
  | Vis c k => let '(x, w') := exec c w in run (k x) w'
  end.

(** *** Calls that run side by side

    A pool of calls in flight over one world; a schedule names, step by
    step, the call that performs its next effect. *)
Inductive Call : Type :=
| InFlight {A : Type} (p : Prog A).

Definition stepCall (c : Call) (w : World) : Call * World :=
  match c with
  | InFlight (Vis cmd k) => let '(x, w') := exec cmd w in (InFlight (k x), w')
  | _ => (c, w)
  end.

Fixpoint replaceNth {A : Type} (n : nat) (x : A) (l : list A) : list A :=
  match l, n with
  | [], _ => []
  | _ :: t, O => x :: t
  | h :: t, S n' => h :: replaceNth n' x t
  end.

Fixpoint interleave (schedule : list nat) (pool : list Call) (w : World)
  : list Call * World :=
  match schedule with
  | [] => (pool, w)
  | i :: rest =>
    match nth_error pool i with
    | None => interleave rest pool w
    | Some c =>
      let '(c', w') := stepCall c w in
      interleave rest (replaceNth i c' pool) w'
    end
  end.

End Services.

Arguments Ret {TY A} a.
Arguments Panic {TY A}.
Arguments Vis {TY A X} c k.
Arguments Done {A} a.
Arguments Panicked {A}.

Declare Scope prog_scope.
Delimit Scope prog_scope with prog.
Notation "x <- m ;; k" := (bind m (fun x => k))
  (at level 61, m at next level, right associativity) : prog_scope.
Notation "' p <- m ;; k" := (bind m (fun x => let p := x in k))
  (at level 61, p pattern, m at next level, right associativity) : prog_scope.
Notation "m ;;; k" := (bind m (fun _ => k))
  (at level 61, right associativity) : prog_scope.

(** Functions and values of the libraries and of the rest of package
    [oidc] that the provider calls and that this file does not look
    into. *)
Class Runtime {TY : Types} : Type := {
  (* Configuration.Redir *)
  Redir : Configuration -> URL -> string;
  (* golang.org/x/oauth2/linkedin.Endpoint *)
  linkedinEndpoint : Endpoint;
  (* httpx.SetOAuth2 *)
  SetOAuth2 :
    Context -> Client -> option OAuth2Config -> Token -> Context * Client;
  (* herodot.ErrInternalServerError *)
  ErrInternalServerError : DefaultError;
  (* the text of the errors of encoding/json *)
  decodeErrorText : JSON.DecodeError -> string;
  (* the text of the error of logUpstreamError *)
  upstreamErrorText : Z -> string;
  (* why a request cannot be built from a method and a URL, if so *)
  requestError : string -> string -> option error
}.

(** ** The provider *)

Section Helpers.

Context {TY : Types} {R : Runtime}.

(** [err.Error()], which is also what the verb [%s] prints. *)
Fixpoint Error (e : error) : string :=
  match e with
  | ErrTransport msg => msg
  | ErrDecode d => decodeErrorText d
  | ErrUpstream status => upstreamErrorText status
  | ErrHerodot d => ErrorField d
  | WithStack cause => Error cause
  end.

Definition MethodGet : string := "GET".

(** [retryablehttp.NewRequestWithContext(ctx, method, url, nil)]. *)
Definition NewRequestWithContext (ctx : Context) (method url : string)
  : error + Request :=
  match requestError method url with
  | Some err => inl err
  | None =>
    inr {| Method := method; RequestURL := url; RequestContext := ctx |}
  end.

(** [client.Do(req)]. *)
Definition ClientDo (client : Client) (req : Request)
  : Prog (error + Response) :=
  (let r := Do client req in
   perform (Emit (RoundTrip req (attempts r))) ;;;
   Ret (outcome r))%prog.

(** [l.reg.Tracer(ctx).Tracer().Start(ctx, name)]; the span is known by
    its name. *)
Definition Start (ctx : Context) (name : string) : Prog (Context * string) :=
  (l <- perform ReadSelf ;;
   perform (Emit (SpanStarted name)) ;;;
   Ret (TracerStart (reg l) ctx name, name))%prog.

(** [otelx.End(span, &err)], as deferred: it sees the error the method
    returns, and [nil] when the method panics. *)
Definition End {A : Type} (span : string) (r : option (A * option error))
  : Prog unit :=
  perform (Emit (SpanEnded span
                   match r with
                   | Some (_, err) => err
                   | None => None
                   end)).

Definition is2xx (status : Z) : bool :=
  (200 <=? status)%Z && (status <? 300)%Z.

(** [http.StatusOK]. *)
Definition isOK (status : Z) : bool := (status =? 200)%Z.

(** Modelled from the spec: [logUpstreamError], which [fetch] calls and
    which is declared in another file of package [oidc].  The upstream
    contract "expects a `200 OK` with a JSON body ...; any other status
    is treated as an upstream error", and the fetcher, on such a
    response, "classifies it as an upstream error (distinct from
    local/internal errors), attaching ... status for observability, and
    aborts without attempting JSON decoding."  The call site passes the
    logger and the response only. *)
Definition logUpstreamError (res : Response) : Prog (option error) :=
  (if isOK (StatusCode res) then Ret None
   else
     perform (Emit (UpstreamLogged (StatusCode res))) ;;;
     Ret (Some (ErrUpstream (StatusCode res))))%prog.

End Helpers.

Module LinkedIn.

Section Methods.

Context {TY : Types} {R : Runtime}.

Definition NewProviderLinkedIn (config : Configuration) (reg : Dependencies)
  : ProviderLinkedIn :=
  {| config := config; reg := reg |}.

Definition Config : Prog Configuration :=
  (l <- perform ReadSelf ;;
   Ret (config l))%prog.

Definition oauth2 (ctx : Context) : Prog OAuth2Config :=
  (l <- perform ReadSelf ;;
   Ret {| OAuth2ClientID := ClientID (config l);
          OAuth2ClientSecret := ClientSecret (config l);
          OAuth2Endpoint := linkedinEndpoint;
          OAuth2Scopes := Scope (config l);
          OAuth2RedirectURL :=
            Redir (config l) (OIDCRedirectURIBase (reg l) ctx) |})%prog.

Definition OAuth2 (ctx : Context)
  : Prog (option OAuth2Config * option error) :=
  (o <- oauth2 ctx ;;
   Ret (Some o, None))%prog.

Definition AuthCodeURLOptions (r : Ider) : Prog (list AuthCodeOption) :=
  Ret [].

(** [result] is the value behind the pointer the caller passes; the
    value it holds when [fetch] returns comes back with the error. *)
Definition fetch {T : Type} `{JSON.Unmarshal T}
  (ctx : Context) (client : Client) (url : string) (result : T)
  : Prog (T * option error) :=
  ('(ctx, span) <-
     Start ctx "selfservice.strategy.oidc.ProviderLinkedIn.fetch" ;;
   defer
     match NewRequestWithContext ctx MethodGet url with
     | inl err => Ret (result, Some (WithStack err))
     | inr req =>
       res <- ClientDo client req ;;
       match res with
       | inl err => Ret (result, Some (WithStack err))
       | inr res =>
         defer
           (failed <- logUpstreamError res ;;
            match failed with
            | Some err => Ret (result, Some err)
            | None =>
              perform (Emit BodyDecoded) ;;;
              let '(result, failed) :=
                JSON.Decode (ResponseBody res) result in
              match failed with
              | Some err => Ret (result, Some (WithStack (ErrDecode err)))
              | None => Ret (result, None)
              end
            end)
           (fun _ => perform (Emit BodyClosed))
       end
     end
     (End span))%prog.

Definition Profile (ctx : Context) (client : Client)
  : Prog (option LinkedInProfile * option error) :=
  (let result := zeroProfile in
   '(result, failed) <- fetch ctx client ProfileUrl result ;;
   match failed with
   | Some err => Ret (None, Some (WithStack err))
   | None => Ret (Some result, None)
   end)%prog.

Definition ProfileLocale (profile : option LinkedInProfile) : Prog string :=
  (p <- deref profile ;;
   match Locale p with
   | None => Ret ""
   | Some _ =>
     locale <- deref (Locale p) ;;
     Ret (Lanuguage locale)
   end)%prog.

Definition Claims (ctx : Context) (exchange : Token) (query : Values)
  : Prog (option Claims * option error) :=
  ('(ctx, span) <-
     Start ctx "selfservice.strategy.oidc.ProviderLinkedIn.Claims" ;;
   defer
     ('(o, failed) <- OAuth2 ctx ;;
      match failed with
      | Some err =>
        Ret (None,
             Some (WithStack (ErrHerodot
                     (WithReason ErrInternalServerError (Error err)))))
      | None =>
        l <- perform ReadSelf ;;
        let '(ctx, client) :=
          SetOAuth2 ctx (HTTPClient (reg l) ctx) o exchange in
        '(profile, failed) <- Profile ctx client ;;
        match failed with
        | Some err =>
          Ret (None,
               Some (WithStack (ErrHerodot
                       (WithReason ErrInternalServerError (Error err)))))
        | None =>
          p <- deref profile ;;
          locale <- ProfileLocale profile ;;
          Ret (Some {| Subject := ID p;
                       Issuer := "https://login.linkedin.com/";
                       Email := EmailAddress p;
                       GivenName := LocalizedFirstName p;
                       LastName := LocalizedLastName p;
                       Picture := ProfilePicture p;
                       ClaimsEmailVerified :=
                         toConvertibleBoolean (EmailVerified p);
                       ClaimsLocale := locale |},
               None)
        end
      end)
     (End span))%prog.

End Methods.

End LinkedIn.

(** ** What the profile endpoint answers

    [Claims] starts its span, asks for the OAuth2 settings, lets
    [httpx.SetOAuth2] bind the client of the registry to the token, and
    [fetch] starts its own span and sends one GET to [ProfileUrl].  The
    definitions below name the values on that path, so that a statement
    can say what the endpoint answered. *)

Section ProfileEndpoint.

Context {TY : Types} {R : Runtime}.

(** The settings [oauth2] builds. *)
Definition settingsOf (l : ProviderLinkedIn) (ctx : Context) : OAuth2Config :=
  {| OAuth2ClientID := ClientID (config l);
     OAuth2ClientSecret := ClientSecret (config l);
     OAuth2Endpoint := linkedinEndpoint;
     OAuth2Scopes := Scope (config l);
     OAuth2RedirectURL :=
       Redir (config l) (OIDCRedirectURIBase (reg l) ctx) |}.

Definition claimsSpan : string :=
  "selfservice.strategy.oidc.ProviderLinkedIn.Claims".
Definition fetchSpan : string :=
  "selfservice.strategy.oidc.ProviderLinkedIn.fetch".

(** The context and the client [Claims] passes to [Profile]. *)
Definition authenticated (l : ProviderLinkedIn) (ctx : Context)
  (exchange : Token) : Context * Client :=
  let ctx1 := TracerStart (reg l) ctx claimsSpan in
  SetOAuth2 ctx1 (HTTPClient (reg l) ctx1) (Some (settingsOf l ctx1)) exchange.

(** The request [fetch] builds for the profile, or why it cannot. *)
Definition profileRequest (l : ProviderLinkedIn) (ctx : Context)
  (exchange : Token) : error + Request :=
  let '(ctx2, _) := authenticated l ctx exchange in
  NewRequestWithContext (TracerStart (reg l) ctx2 fetchSpan)
    MethodGet ProfileUrl.

(** The profile endpoint answers request [req] of [Claims] with [res],
    after the client made [n] attempts. *)
Definition endpointAnswers (l : ProviderLinkedIn) (ctx : Context)
  (exchange : Token) (req : Request) (n : nat) (res : error + Response)
  : Prop :=
  profileRequest l ctx exchange = inr req /\
  Do (snd (authenticated l ctx exchange)) req =
    {| attempts := n; outcome := res |}.

(** The client retried: some round trip of the trace took more than one
    attempt. *)
Definition retried (tr : list Event) : Prop :=
  exists req n, In (RoundTrip req n) tr /\ (2 <= n)%nat.

(** The number of calls of [client.Do] in a trace. *)
Fixpoint roundTrips (tr : list Event) : nat :=
  match tr with
  | [] => 0
  | RoundTrip _ _ :: rest => S (roundTrips rest)
  | _ :: rest => roundTrips rest
  end.

Definition isBodyDecoded (e : Event) : bool :=
  match e with
  | BodyDecoded => true
  | _ => false
  end.

(** The body was handed to the JSON decoder somewhere in the trace. *)
Definition decoded (tr : list Event) : bool := existsb isBodyDecoded tr.

End ProfileEndpoint.

(** ** A provider over a mocked upstream *)

Module Mock.

Definition types : Types :=
  {| Context := list string;
     Token := string;
     Values := list (string * list string);
     Ider := unit;
     AuthCodeOption := string * string |}.

Definition internalServerError : DefaultError :=
  {| CodeField := 500;
     StatusField := "Internal Server Error";
     ErrorField := "An internal server error occurred";
     ReasonField := "" |}.

Definition redir (c : Configuration) (base : URL) : string :=
  base ++ "/self-service/methods/oidc/callback/linkedin".

Definition setOAuth2 (ctx : list string) (client : @Client types)
  (o : option OAuth2Config) (token : string) : list string * @Client types :=
  (("token " ++ token) :: ctx, client).

Definition errorText (e : JSON.DecodeError) : string :=
  match e with
  | JSON.SyntaxError msg => msg
  | JSON.UnmarshalTypeError _ field _ =>
    "json: cannot unmarshal into field " ++ field
  end.

Definition runtime : @Runtime types :=
  @Build_Runtime types
    redir
    {| AuthURL := "https://www.linkedin.com/oauth/v2/authorization";
       TokenURL := "https://www.linkedin.com/oauth/v2/accessToken" |}
    setOAuth2
    internalServerError
    errorText
    (fun _ => "unexpected upstream status")
    (fun _ _ => None).

Definition configuration : Configuration :=
  {| ClientID := "client-id";
     ClientSecret := "client-secret";
     Scope := ["openid"; "profile"; "email"] |}.

(** A registry whose HTTP client answers every request with [reply]. *)
Definition registry (reply : DoResult) : @Dependencies types :=
  @Build_Dependencies types
    (fun _ => "https://kratos.example")
    (fun _ => @Build_Client types (fun _ => reply))
    (fun (ctx : list string) name => ("span " ++ name) :: ctx).

Definition provider (reply : DoResult) : @ProviderLinkedIn types :=
  @LinkedIn.NewProviderLinkedIn types configuration (registry reply).

Definition world (reply : DoResult) : @World types :=
  @Build_World types (provider reply) [].

(** The upstream answers at once with [status] and [body]. *)
Definition answers (status : Z) (body : JSON.Body) : DoResult :=
  {| attempts := 1;
     outcome := inr {| StatusCode := status; ResponseBody := body |} |}.

(** The upstream cannot be reached. *)
Definition unreachable (msg : string) : DoResult :=
  {| attempts := 1; outcome := inl (ErrTransport msg) |}.

Definition background : @Context types := [].

Definition request : @Request types :=
  @Build_Request types "GET" ProfileUrl
    ["span selfservice.strategy.oidc.ProviderLinkedIn.fetch";
     "token access-token";
     "span selfservice.strategy.oidc.ProviderLinkedIn.Claims"].

(** [Claims] of the provider over an upstream that gives [reply]. *)
Definition claims (reply : DoResult)
  : Outcome (option Claims * option error) * @World types :=
  run (@LinkedIn.Claims types runtime background "access-token" [])
      (world reply).

End Mock.

(** ** The payloads of the scenarios *)

(** [{"sub":"abc123","email":"a@example.com","email_verified":V,
      "given_name":"Ann","family_name":"Lee","picture":"http://img",
      "locale":{"language":"en-US"}}] for a value [V], and the same
    without the member [locale]. *)
Definition scenarioMembers (verified : JSON.json) : list (string * JSON.json) :=
  [("sub", JSON.Str "abc123");
   ("email", JSON.Str "a@example.com");
   ("email_verified", verified);
   ("given_name", JSON.Str "Ann");
   ("family_name", JSON.Str "Lee");
   ("picture", JSON.Str "http://img")].

Definition scenarioBody (verified : JSON.json) : JSON.Body :=
  JSON.Value (JSON.Object
    (scenarioMembers verified ++
     [("locale", JSON.Object [("language", JSON.Str "en-US")])])).

Definition scenarioBodyNoLocale (verified : JSON.json) : JSON.Body :=
  JSON.Value (JSON.Object (scenarioMembers verified)).

Definition scenarioClaims (locale : string) : Claims :=
  {| Subject := "abc123";
     Issuer := "https://login.linkedin.com/";
     Email := "a@example.com";
     GivenName := "Ann";
     LastName := "Lee";
     Picture := "http://img";
     ClaimsEmailVerified := true;
     ClaimsLocale := locale |}.

(** ** What a payload says about [email_verified] *)

(** A value the [bool] field takes: a JSON boolean, or [null]. *)
Definition boolOrNull (v : JSON.json) : bool :=
  match v with
  | JSON.Bool _ | JSON.Null => true
  | _ => false
  end.

(** The boolean a payload gives for [email_verified]: that of the last
    member under that key with a JSON boolean, [false] if there is
    none. *)
Definition verifiedStep (b : bool) (kv : string * JSON.json) : bool :=
  if JSON.keyIs "email_verified" (fst kv) then
    match snd kv with
    | JSON.Bool b' => b'
    | _ => b
    end
  else b.

Definition verifiedIn (members : list (string * JSON.json)) : bool :=
  fold_left verifiedStep members false.

(** ** Naming the results of [Claims] *)

Section Results.

Context {TY : Types} {R : Runtime}.

(** The error [Claims] returns for a failure [cause]. *)
Definition internal (cause : error) : error :=
  WithStack (ErrHerodot (WithReason ErrInternalServerError (Error cause))).

(** The claims [Claims] builds from a decoded profile. *)
Definition claimsOf (p : LinkedInProfile) : Claims :=
  {| Subject := ID p;
     Issuer := "https://login.linkedin.com/";
     Email := EmailAddress p;
     GivenName := LocalizedFirstName p;
     LastName := LocalizedLastName p;
     Picture := ProfilePicture p;
     ClaimsEmailVerified := EmailVerified p;
     ClaimsLocale :=
       match Locale p with
       | None => ""
       | Some locale => Lanuguage locale
       end |}.

(** The world after more events. *)
Definition after (w : World) (events : list Event) : World :=
  {| self := self w; trace := trace w ++ events |}.

(** The events of a trace that follow the decoding of the body. *)
Fixpoint afterDecode (tr : list Event) : list Event :=
  match tr with
  | [] => []
  | BodyDecoded :: rest => rest
  | _ :: rest => afterDecode rest
  end.

(** The events of a call of [Claims] on each of its paths. *)
Definition eventsNoRequest (err : error) : list Event :=
  [SpanStarted claimsSpan;
   SpanStarted fetchSpan;
   SpanEnded fetchSpan (Some (WithStack err));
   SpanEnded claimsSpan (Some (internal (WithStack (WithStack err))))].

Definition eventsNoResponse (req : Request) (n : nat) (err : error)
  : list Event :=
  [SpanStarted claimsSpan;
   SpanStarted fetchSpan;
   RoundTrip req n;
   SpanEnded fetchSpan (Some (WithStack err));
   SpanEnded claimsSpan (Some (internal (WithStack (WithStack err))))].

Definition eventsBadStatus (req : Request) (n : nat) (status : Z)
  : list Event :=
  [SpanStarted claimsSpan;
   SpanStarted fetchSpan;
   RoundTrip req n;
   UpstreamLogged status;
   BodyClosed;
   SpanEnded fetchSpan (Some (ErrUpstream status));
   SpanEnded claimsSpan (Some (internal (WithStack (ErrUpstream status))))].

Definition eventsBadBody (req : Request) (n : nat) (e : JSON.DecodeError)
  : list Event :=
  [SpanStarted claimsSpan;
   SpanStarted fetchSpan;
   RoundTrip req n;
   BodyDecoded;
   BodyClosed;
   SpanEnded fetchSpan (Some (WithStack (ErrDecode e)));
   SpanEnded claimsSpan
     (Some (internal (WithStack (WithStack (ErrDecode e)))))].

Definition eventsOk (req : Request) (n : nat) : list Event :=
  [SpanStarted claimsSpan;
   SpanStarted fetchSpan;
   RoundTrip req n;
   BodyDecoded;
   BodyClosed;
   SpanEnded fetchSpan None;
   SpanEnded claimsSpan None].

End Results.

(** ** What a payload says about the other fields

    The functions below read a payload member by member, as a reader of
    the JSON text would: they are what the claims are compared with. *)

(** The string a payload gives under [tag]: that of the last member
    under that key with a JSON string, [s] if there is none. *)
Definition stringStep (tag : string) (s : string) (kv : string * JSON.json)
  : string :=
  if JSON.keyIs tag (fst kv) then
    match snd kv with
    | JSON.Str s' => s'
    | _ => s
    end
  else s.

Definition stringIn (tag : string) (members : list (string * JSON.json))
  : string :=
  fold_left (stringStep tag) members "".

(** The language a payload gives: an object under [locale] sets it from
    its members [language], [null] under [locale] clears it. *)
Definition localeStep (s : string) (kv : string * JSON.json) : string :=
  if JSON.keyIs "locale" (fst kv) then
    match snd kv with
    | JSON.Null => ""
    | JSON.Object inner => fold_left (stringStep "language") inner s
    | _ => s
    end
  else s.

Definition localeIn (members : list (string * JSON.json)) : string :=
  fold_left localeStep members "".

(** The claims a payload stands for. *)
Definition claimsIn (members : list (string * JSON.json)) : Claims :=
  {| Subject := stringIn "sub" members;
     Issuer := "https://login.linkedin.com/";
     Email := stringIn "email" members;
     GivenName := stringIn "given_name" members;
     LastName := stringIn "family_name" members;
     Picture := stringIn "picture" members;
     ClaimsEmailVerified := verifiedIn members;
     ClaimsLocale := localeIn members |}.

(** A value a [string] field takes: a JSON string, or [null]. *)
Definition stringOrNull (v : JSON.json) : bool :=
  match v with
  | JSON.Str _ | JSON.Null => true
  | _ => false
  end.

Definition acceptableLanguage (kv : string * JSON.json) : bool :=
  if JSON.keyIs "language" (fst kv) then stringOrNull (snd kv) else true.

(** A member the profile shape takes: under a key of a string field a
    string or [null], under [email_verified] a boolean or [null], under
    [locale] [null] or an object whose members [language] are strings
    or [null]; under any other key, anything. *)
Definition acceptable (kv : string * JSON.json) : bool :=
  let k := fst kv in
  let v := snd kv in
  if JSON.keyIs "family_name" k then stringOrNull v
  else if JSON.keyIs "given_name" k then stringOrNull v
  else if JSON.keyIs "picture" k then stringOrNull v
  else if JSON.keyIs "email" k then stringOrNull v
  else if JSON.keyIs "email_verified" k then boolOrNull v
  else if JSON.keyIs "sub" k then stringOrNull v
  else if JSON.keyIs "locale" k then
    match v with
    | JSON.Null => true
    | JSON.Object inner => forallb acceptableLanguage inner
    | _ => false
    end
  else true.

(** A key that matches one of the tags of [LinkedInProfile]. *)
Definition recognised (k : string) : bool :=
  JSON.keyIs "family_name" k || JSON.keyIs "given_name" k ||
  JSON.keyIs "picture" k || JSON.keyIs "email" k ||
  JSON.keyIs "email_verified" k || JSON.keyIs "sub" k ||
  JSON.keyIs "locale" k.

(** The members of a payload that count, under their folded keys. *)
Definition canonical (members : list (string * JSON.json))
  : list (string * JSON.json) :=
  map (fun kv => (JSON.foldName (fst kv), snd kv))
      (filter (fun kv => recognised (fst kv)) members).

(** ** Reading a trace *)

Section Traces.

Context {TY : Types}.

Definition isSpanEvent (e : Event) : bool :=
  match e with
  | SpanStarted _ | SpanEnded _ _ => true
  | _ => false
  end.

Definition isBodyClosed (e : Event) : bool :=
  match e with
  | BodyClosed => true
  | _ => false
  end.

(** The number of times a body was closed in a trace. *)
Definition closings (tr : list Event) : nat :=
  length (filter isBodyClosed tr).

(** The requests sent in a trace. *)
Fixpoint requestsOf (tr : list Event) : list Request :=
  match tr with
  | [] => []
  | RoundTrip req _ :: rest => req :: requestsOf rest
  | _ :: rest => requestsOf rest
  end.

End Traces.

(** ** The retrying client *)

Section Retrying.

Context {TY : Types}.

Definition is5xx (status : Z) : bool :=
  (500 <=? status)%Z && (status <? 600)%Z.

(** An attempt the client makes again: the round trip failed with an
    error that [lost] takes for a network failure, or the upstream
    answered 5xx. *)
Definition transient (lost : error -> bool) (o : error + Response) : bool :=
  match o with
  | inl err => lost err
  | inr res => is5xx (StatusCode res)
  end.

(** Modelled from the spec: the client [fetch] is given, which the
    registry builds outside this file: "a client configured for bounded
    retry-with-backoff on transient network/5xx failures", by which a
    request is "retried transparently inside the fetch operation up to a
    bounded attempt count".  [server] gives what the upstream answers to
    each attempt, counted from [attempt]; [retries] is what is left of
    the bound.  The client hands back what the last attempt came to, and
    the number of attempts made; the waiting between attempts is not
    modelled. *)
Fixpoint retrying (retries : nat) (lost : error -> bool) (attempt : nat)
  (server : nat -> error + Response) : DoResult :=
  let o := server attempt in
  match retries with
  | O => {| attempts := S attempt; outcome := o |}
  | S rest =>
    if transient lost o then retrying rest lost (S attempt) server
    else {| attempts := S attempt; outcome := o |}
  end.

Definition retryingClient (retryMax : nat) (lost : error -> bool)
  (upstream : Request -> nat -> error + Response) : Client :=
  {| Do := fun req => retrying retryMax lost 0 (upstream req) |}.

End Retrying.

(** ** Code that does not write the provider *)

Section Writes.

Context {TY : Types} {R : Runtime}.

Definition writes {X : Type} (c : Cmd X) : bool :=
  match c with
  | ReadSelf | Emit _ => false
  | SetConfig _ | SetReg _ => true
  end.

(** A program none of whose runs reaches a write of the provider. *)
Fixpoint writeFree {A : Type} (p : Prog A) : Prop :=
  match p with
  | Ret _ => True
  | Panic => True
  | Vis c k => writes c = false /\ forall x, writeFree (k x)
  end.

Definition quiet (c : Call) : Prop :=
  match c with
  | InFlight p => writeFree p
  end.

(** A call of one of the operations of the provider. *)
Inductive Operation : Type :=
| CallConfig
| CallOAuth2 (ctx : Context)
| CallAuthCodeURLOptions (r : Ider)
| CallProfile (ctx : Context) (client : Client)
| CallClaims (ctx : Context) (exchange : Token) (query : Values).

Definition call (o : Operation) : Call :=
  match o with
  | CallConfig => InFlight LinkedIn.Config
  | CallOAuth2 ctx => InFlight (LinkedIn.OAuth2 ctx)
  | CallAuthCodeURLOptions r => InFlight (LinkedIn.AuthCodeURLOptions r)
  | CallProfile ctx client => InFlight (LinkedIn.Profile ctx client)
  | CallClaims ctx exchange query =>
    InFlight (LinkedIn.Claims ctx exchange query)
  end.

End Writes.

(** ** A provider over a mocked upstream behind a retrying client *)

Module MockRetrying.

(** Every error of the round trip counts as a network failure. *)
Definition lost (err : error) : bool := true.

(** A registry whose HTTP client makes up to [retryMax] retries against
    an upstream that answers attempt [i] with [server i]. *)
Definition registry (retryMax : nat) (server : nat -> error + Response)
  : @Dependencies Mock.types :=
  @Build_Dependencies Mock.types
    (fun _ => "https://kratos.example")
    (fun _ => @retryingClient Mock.types retryMax lost (fun _ => server))
    (fun (ctx : list string) name => ("span " ++ name) :: ctx).

Definition provider (retryMax : nat) (server : nat -> error + Response)
  : @ProviderLinkedIn Mock.types :=
  @LinkedIn.NewProviderLinkedIn Mock.types Mock.configuration
    (registry retryMax server).

Definition world (retryMax : nat) (server : nat -> error + Response)
  : @World Mock.types :=
  @Build_World Mock.types (provider retryMax server) [].

(** The upstream answers every attempt with [status] and an empty
    body. *)
Definition always (status : Z) (attempt : nat) : error + Response :=
  inr {| StatusCode := status; ResponseBody := JSON.Malformed "" |}.

Definition claims (retryMax : nat) (server : nat -> error + Response)
  : Outcome (option Claims * option error) * @World Mock.types :=
  run (@LinkedIn.Claims Mock.types Mock.runtime Mock.background
         "access-token" [])
      (world retryMax server).

End MockRetrying.

(** * Properties *)

Section Paths.

Context {TY : Types} {R : Runtime}.

Ltac trace_norm :=
  unfold after, eventsNoRequest, eventsNoResponse, eventsBadStatus,
    eventsBadBody, eventsOk, internal, claimsSpan, fetchSpan;
  cbn; repeat rewrite <- app_assoc; cbn.

Ltac expose_claims :=
  unfold LinkedIn.Claims, LinkedIn.OAuth2, LinkedIn.oauth2, LinkedIn.Profile,
    LinkedIn.fetch, Start, End, ClientDo, perform; cbn.

Ltac enter_fetch w ctx exchange Hreq Hdo :=
  expose_claims;
  unfold profileRequest, authenticated, claimsSpan, fetchSpan, settingsOf
    in Hreq, Hdo;
  cbn in Hreq, Hdo;
  destruct (SetOAuth2 _ _ _ exchange) as [ctx2 client];
  cbn in Hreq, Hdo; cbn.

(** [fetch] on a response outside 2xx: the upstream error comes back,
    the destination is untouched, the body is closed without being
    decoded. *)
Lemma fetch_bad_status {T : Type} `{JSON.Unmarshal T} (w : World)
  (ctx : Context) (client : Client) (url : string) (result : T)
  (req : Request) (n : nat) (res : Response) :
  NewRequestWithContext (TracerStart (reg (self w)) ctx fetchSpan)
    MethodGet url = inr req ->
  Do client req = {| attempts := n; outcome := inr res |} ->
  isOK (StatusCode res) = false ->
  run (LinkedIn.fetch ctx client url result) w =
    (Done (result, Some (ErrUpstream (StatusCode res))),
     after w [SpanStarted fetchSpan;
              RoundTrip req n;
              UpstreamLogged (StatusCode res);
              BodyClosed;
              SpanEnded fetchSpan (Some (ErrUpstream (StatusCode res)))]).
Proof.
  intros Hreq Hdo Hstatus.
  unfold LinkedIn.fetch, Start, End, ClientDo, perform, fetchSpan in *. cbn.
  rewrite Hreq. cbn. rewrite Hdo. cbn.
  unfold logUpstreamError. rewrite Hstatus. cbn.
  trace_norm. reflexivity.
Qed.

(** [fetch] on a 2xx response whose body does not decode: the decode
    error comes back with a stack, after the one round trip. *)
Lemma fetch_bad_body {T : Type} `{JSON.Unmarshal T} (w : World)
  (ctx : Context) (client : Client) (url : string) (result decoded : T)
  (req : Request) (n : nat) (res : Response) (e : JSON.DecodeError) :
  NewRequestWithContext (TracerStart (reg (self w)) ctx fetchSpan)
    MethodGet url = inr req ->
  Do client req = {| attempts := n; outcome := inr res |} ->
  isOK (StatusCode res) = true ->
  JSON.Decode (ResponseBody res) result = (decoded, Some e) ->
  run (LinkedIn.fetch ctx client url result) w =
    (Done (decoded, Some (WithStack (ErrDecode e))),
     after w [SpanStarted fetchSpan;
              RoundTrip req n;
              BodyDecoded;
              BodyClosed;
              SpanEnded fetchSpan (Some (WithStack (ErrDecode e)))]).
Proof.
  intros Hreq Hdo Hstatus Hdecode.
  unfold LinkedIn.fetch, Start, End, ClientDo, perform, fetchSpan in *. cbn.
  rewrite Hreq. cbn. rewrite Hdo. cbn.
  unfold logUpstreamError. rewrite Hstatus. cbn.
  rewrite Hdecode. cbn.
  trace_norm. reflexivity.
Qed.

(** What [endpointAnswers] says at the call of [fetch]. *)
Lemma endpointAnswers_fetch (w : World) (ctx : Context) (exchange : Token)
  (req : Request) (n : nat) (out : error + Response) :
  endpointAnswers (self w) ctx exchange req n out ->
  NewRequestWithContext
    (TracerStart (reg (self w)) (fst (authenticated (self w) ctx exchange))
       fetchSpan)
    MethodGet ProfileUrl = inr req /\
  Do (snd (authenticated (self w) ctx exchange)) req =
    {| attempts := n; outcome := out |}.
Proof.
  intros [Hreq Hdo]. split; [| exact Hdo].
  unfold profileRequest in Hreq.
  now destruct (authenticated (self w) ctx exchange).
Qed.

(** The request cannot be built: nothing is sent. *)
Lemma Claims_no_request (w : World) (ctx : Context) (exchange : Token)
  (query : Values) (err : error) :
  profileRequest (self w) ctx exchange = inl err ->
  run (LinkedIn.Claims ctx exchange query) w =
    (Done (None, Some (internal (WithStack (WithStack err)))),
     after w (eventsNoRequest err)).
Proof.
  intros Hreq. pose proof I as Hdo.
  enter_fetch w ctx exchange Hreq Hdo.
  rewrite Hreq. cbn. trace_norm. reflexivity.
Qed.

(** The client comes back with an error. *)
Lemma Claims_no_response (w : World) (ctx : Context) (exchange : Token)
  (query : Values) (req : Request) (n : nat) (err : error) :
  endpointAnswers (self w) ctx exchange req n (inl err) ->
  run (LinkedIn.Claims ctx exchange query) w =
    (Done (None, Some (internal (WithStack (WithStack err)))),
     after w (eventsNoResponse req n err)).
Proof.
  intros [Hreq Hdo].
  enter_fetch w ctx exchange Hreq Hdo.
  rewrite Hreq. cbn. rewrite Hdo. cbn. trace_norm. reflexivity.
Qed.

(** The client comes back with a response outside 2xx. *)
Lemma Claims_bad_status (w : World) (ctx : Context) (exchange : Token)
  (query : Values) (req : Request) (n : nat) (res : Response) :
  endpointAnswers (self w) ctx exchange req n (inr res) ->
  isOK (StatusCode res) = false ->
  run (LinkedIn.Claims ctx exchange query) w =
    (Done (None, Some (internal (WithStack (ErrUpstream (StatusCode res))))),
     after w (eventsBadStatus req n (StatusCode res))).
Proof.
  intros [Hreq Hdo] Hstatus.
  enter_fetch w ctx exchange Hreq Hdo.
  rewrite Hreq. cbn. rewrite Hdo. cbn.
  unfold logUpstreamError. rewrite Hstatus. cbn.
  trace_norm. reflexivity.
Qed.

(** The client comes back with a 2xx response whose body does not
    decode. *)
Lemma Claims_bad_body (w : World) (ctx : Context) (exchange : Token)
  (query : Values) (req : Request) (n : nat) (res : Response)
  (p : LinkedInProfile) (e : JSON.DecodeError) :
  endpointAnswers (self w) ctx exchange req n (inr res) ->
  isOK (StatusCode res) = true ->
  JSON.Decode (ResponseBody res) zeroProfile = (p, Some e) ->
  run (LinkedIn.Claims ctx exchange query) w =
    (Done (None, Some (internal (WithStack (WithStack (ErrDecode e))))),
     after w (eventsBadBody req n e)).
Proof.
  intros [Hreq Hdo] Hstatus Hdecode.
  enter_fetch w ctx exchange Hreq Hdo.
  rewrite Hreq. cbn. rewrite Hdo. cbn.
  unfold logUpstreamError. rewrite Hstatus. cbn.
  rewrite Hdecode. cbn.
  trace_norm. reflexivity.
Qed.

(** The client comes back with a 2xx response whose body decodes. *)
Lemma Claims_ok (w : World) (ctx : Context) (exchange : Token)
  (query : Values) (req : Request) (n : nat) (res : Response)
  (p : LinkedInProfile) :
  endpointAnswers (self w) ctx exchange req n (inr res) ->
  isOK (StatusCode res) = true ->
  JSON.Decode (ResponseBody res) zeroProfile = (p, None) ->
  run (LinkedIn.Claims ctx exchange query) w =
    (Done (Some (claimsOf p), None), after w (eventsOk req n)).
Proof.
  intros [Hreq Hdo] Hstatus Hdecode.
  enter_fetch w ctx exchange Hreq Hdo.
  rewrite Hreq. cbn. rewrite Hdo. cbn.
  unfold logUpstreamError. rewrite Hstatus. cbn.
  rewrite Hdecode. cbn.
  unfold claimsOf, toConvertibleBoolean.
  destruct (Locale p) as [locale |]; cbn; trace_norm; reflexivity.
Qed.

End Paths.

Section Frame.

Context {TY : Types} {R : Runtime}.

Lemma exec_self {X : Type} (c : Cmd X) (w : World) :
  writes c = false -> self (snd (exec c w)) = self w.
Proof.
  destruct c; intros Hc; try discriminate Hc; reflexivity.
Qed.

(** A program that reaches no write leaves the receiver as it was. *)
Lemma run_self {A : Type} (p : Prog A) (w : World) :
  writeFree p -> self (snd (run p w)) = self w.
Proof.
  revert w. induction p as [a | | X c k IH]; intros w Hp; cbn;
    try reflexivity.
  destruct Hp as [Hc Hk].
  pose proof (exec_self c w Hc) as Hexec.
  destruct (exec c w) as [x w']. cbn in Hexec.
  rewrite IH by apply Hk. exact Hexec.
Qed.

(** A write is seen by whoever reads afterwards: the frame property
    below is one of the methods, not of the programs at large. *)
Lemma SetConfig_is_seen (c : Configuration) (w : World) :
  fst (run LinkedIn.Config (snd (run (perform (SetConfig c)) w))) = Done c /\
  ~ writeFree (@perform TY unit (SetConfig c)).
Proof.
  split; [reflexivity |]. intros [Habs _]. discriminate Habs.
Qed.

Lemma writeFree_bind {A B : Type} (m : Prog A) (f : A -> Prog B) :
  writeFree m -> (forall a, writeFree (f a)) -> writeFree (bind m f).
Proof.
  intros Hm Hf. induction m as [a | | X c k IH]; cbn.
  - apply Hf.
  - exact I.
  - destruct Hm as [Hc Hk]. split; [exact Hc |].
    intros x. apply IH. apply Hk.
Qed.

Lemma writeFree_defer {A : Type} (body : Prog A) (h : option A -> Prog unit) :
  writeFree body -> (forall o, writeFree (h o)) -> writeFree (defer body h).
Proof.
  intros Hbody Hh. induction body as [a | | X c k IH]; cbn.
  - apply writeFree_bind; [apply Hh | intros _; exact I].
  - apply writeFree_bind; [apply Hh | intros _; exact I].
  - destruct Hbody as [Hc Hk]. split; [exact Hc |].
    intros x. apply IH. apply Hk.
Qed.

Lemma writeFree_ReadSelf : writeFree (perform ReadSelf).
Proof.
  split; [reflexivity | intros x; exact I].
Qed.

Lemma writeFree_Emit (e : Event) : writeFree (perform (Emit e)).
Proof.
  split; [reflexivity | intros x; exact I].
Qed.

Lemma writeFree_deref {A : Type} (p : option A) : writeFree (deref p).
Proof.
  destruct p; exact I.
Qed.

Lemma writeFree_Start (ctx : Context) (name : string) :
  writeFree (Start ctx name).
Proof.
  unfold Start.
  apply writeFree_bind; [apply writeFree_ReadSelf | intros l].
  apply writeFree_bind; [apply writeFree_Emit | intros _; exact I].
Qed.

Lemma writeFree_End {A : Type} (span : string)
  (r : option (A * option error)) :
  writeFree (End span r).
Proof.
  apply writeFree_Emit.
Qed.

(** The methods, one by one. *)

Lemma Config_writeFree : writeFree LinkedIn.Config.
Proof.
  unfold LinkedIn.Config.
  apply writeFree_bind; [apply writeFree_ReadSelf | intros l; exact I].
Qed.

Lemma oauth2_writeFree (ctx : Context) : writeFree (LinkedIn.oauth2 ctx).
Proof.
  unfold LinkedIn.oauth2.
  apply writeFree_bind; [apply writeFree_ReadSelf | intros l; exact I].
Qed.

Lemma OAuth2_writeFree (ctx : Context) : writeFree (LinkedIn.OAuth2 ctx).
Proof.
  unfold LinkedIn.OAuth2.
  apply writeFree_bind; [apply oauth2_writeFree | intros o; exact I].
Qed.

Lemma AuthCodeURLOptions_writeFree (r : Ider) :
  writeFree (LinkedIn.AuthCodeURLOptions r).
Proof.
  exact I.
Qed.

Lemma fetch_writeFree {T : Type} `{JSON.Unmarshal T} (ctx : Context)
  (client : Client) (url : string) (result : T) :
  writeFree (LinkedIn.fetch ctx client url result).
Proof.
  unfold LinkedIn.fetch.
  apply writeFree_bind; [apply writeFree_Start | intros [ctx' span]].
  apply writeFree_defer; [| intros o; apply writeFree_End].
  destruct (NewRequestWithContext ctx' MethodGet url) as [err | req];
    [exact I |].
  unfold ClientDo.
  apply writeFree_bind.
  { apply writeFree_bind; [apply writeFree_Emit | intros _; exact I]. }
  intros [err | res]; [exact I |].
  apply writeFree_defer; [| intros o; apply writeFree_Emit].
  apply writeFree_bind.
  { unfold logUpstreamError. destruct (isOK (StatusCode res)); [exact I |].
    apply writeFree_bind; [apply writeFree_Emit | intros _; exact I]. }
  intros [err |]; [exact I |].
  apply writeFree_bind; [apply writeFree_Emit | intros _].
  destruct (JSON.Decode (ResponseBody res) result) as [decoded [e |]];
    exact I.
Qed.

Lemma Profile_writeFree (ctx : Context) (client : Client) :
  writeFree (LinkedIn.Profile ctx client).
Proof.
  unfold LinkedIn.Profile.
  apply writeFree_bind; [apply fetch_writeFree | intros [result [err |]]];
    exact I.
Qed.

Lemma ProfileLocale_writeFree (profile : option LinkedInProfile) :
  writeFree (LinkedIn.ProfileLocale profile).
Proof.
  unfold LinkedIn.ProfileLocale.
  apply writeFree_bind; [apply writeFree_deref | intros p].
  destruct (Locale p); [| exact I].
  apply writeFree_bind; [apply writeFree_deref | intros locale; exact I].
Qed.

Lemma Claims_writeFree (ctx : Context) (exchange : Token) (query : Values) :
  writeFree (LinkedIn.Claims ctx exchange query).
Proof.
  unfold LinkedIn.Claims.
  apply writeFree_bind; [apply writeFree_Start | intros [ctx' span]].
  apply writeFree_defer; [| intros o; apply writeFree_End].
  apply writeFree_bind; [apply OAuth2_writeFree | intros [o [err |]]];
    [exact I |].
  apply writeFree_bind; [apply writeFree_ReadSelf | intros l].
  destruct (SetOAuth2 ctx' (HTTPClient (reg l) ctx') o exchange)
    as [ctx2 client].
  apply writeFree_bind; [apply Profile_writeFree | intros [profile [err |]]];
    [exact I |].
  apply writeFree_bind; [apply writeFree_deref | intros p].
  apply writeFree_bind; [apply ProfileLocale_writeFree | intros locale].
  exact I.
Qed.

Lemma call_quiet (o : Operation) : quiet (call o).
Proof.
  destruct o.
  - exact Config_writeFree.
  - exact (OAuth2_writeFree ctx).
  - exact (AuthCodeURLOptions_writeFree r).
  - exact (Profile_writeFree ctx client).
  - exact (Claims_writeFree ctx exchange query).
Qed.

(** One step of a call in flight keeps it quiet and the receiver as it
    was. *)
Lemma stepCall_self (c : Call) (w : World) :
  quiet c ->
  quiet (fst (stepCall c w)) /\ self (snd (stepCall c w)) = self w.
Proof.
  destruct c as [A p]. destruct p as [a | | X c k]; cbn; intros Hq;
    try (split; [exact Hq | reflexivity]).
  destruct Hq as [Hc Hk].
  pose proof (exec_self c w Hc) as Hexec.
  destruct (exec c w) as [x w']. cbn in Hexec |- *.
  split; [apply Hk | exact Hexec].
Qed.

Lemma replaceNth_Forall {A : Type} (P : A -> Prop) (n : nat) (x : A)
  (l : list A) :
  P x -> Forall P l -> Forall P (replaceNth n x l).
Proof.
  intros Hx Hl. revert n.
  induction Hl as [| h t Hh Ht IH]; intros n; destruct n; cbn;
    constructor; auto.
Qed.

Lemma interleave_self (schedule : list nat) (pool : list Call) (w : World) :
  Forall quiet pool -> self (snd (interleave schedule pool w)) = self w.
Proof.
  revert pool w.
  induction schedule as [| i rest IH]; intros pool w Hpool; cbn;
    try reflexivity.
  destruct (nth_error pool i) as [c |] eqn:Hnth; [| now apply IH].
  assert (Hc : quiet c).
  { rewrite Forall_forall in Hpool. apply Hpool.
    eapply nth_error_In. exact Hnth. }
  destruct (stepCall_self c w Hc) as [Hq Hs].
  destruct (stepCall c w) as [c' w']. cbn in Hq, Hs.
  rewrite IH; [exact Hs |].
  now apply replaceNth_Forall.
Qed.

Lemma calls_quiet (calls : list Operation) : Forall quiet (map call calls).
Proof.
  induction calls as [| o rest IH]; constructor;
    [apply call_quiet | exact IH].
Qed.

(** [Config] returns the configuration of the receiver. *)
Lemma run_Config (w : World) :
  run LinkedIn.Config w = (Done (config (self w)), w).
Proof.
  reflexivity.
Qed.

(** C9. Every operation of the provider ([Config], [OAuth2],
    [AuthCodeURLOptions], [Profile], [Claims], and with them [fetch]
    and [ProfileLocale]) leaves the object behind the receiver as it
    was: none of them reaches a write of [l.config] or [l.reg], nor one
    through the pointer [Config] returns.  The same holds for any number
    of calls of these operations in flight over the same object,
    whatever the order in which their effects interleave, so [Config]
    called afterwards returns the configuration it returned before,
    which is the one the provider was constructed with. *)
Theorem C9_provider_state_unchanged
  (ctx : Context) (exchange : Token) (query : Values) (r : Ider)
  (client : Client) (url : string) (profile : option LinkedInProfile)
  (w : World) :
  self (snd (run LinkedIn.Config w)) = self w /\
  self (snd (run (LinkedIn.OAuth2 ctx) w)) = self w /\
  self (snd (run (LinkedIn.AuthCodeURLOptions r) w)) = self w /\
  self (snd (run (LinkedIn.fetch ctx client url zeroProfile) w)) = self w /\
  self (snd (run (LinkedIn.Profile ctx client) w)) = self w /\
  self (snd (run (LinkedIn.ProfileLocale profile) w)) = self w /\
  self (snd (run (LinkedIn.Claims ctx exchange query) w)) = self w /\
  (forall (schedule : list nat) (calls : list Operation),
      self (snd (interleave schedule (map call calls) w)) = self w /\
      fst (run LinkedIn.Config
             (snd (interleave schedule (map call calls) w))) =
        fst (run LinkedIn.Config w)) /\
  fst (run LinkedIn.Config
         (snd (run (LinkedIn.Claims ctx exchange query) w))) =
    fst (run LinkedIn.Config w) /\
  (forall (c : Configuration) (d : Dependencies) (tr : list Event),
      fst (run LinkedIn.Config
             (snd (run (LinkedIn.Claims ctx exchange query)
                     {| self := LinkedIn.NewProviderLinkedIn c d;
                        trace := tr |}))) = Done c).
Proof.
  split; [apply run_self, Config_writeFree |].
  split; [apply run_self, OAuth2_writeFree |].
  split; [apply run_self, AuthCodeURLOptions_writeFree |].
  split; [apply run_self, fetch_writeFree |].
  split; [apply run_self, Profile_writeFree |].
  split; [apply run_self, ProfileLocale_writeFree |].
  split; [apply run_self, Claims_writeFree |].
  split; [| split].
  - intros schedule calls.
    pose proof (interleave_self schedule (map call calls) w
                  (calls_quiet calls)) as Hself.
    split; [exact Hself |].
    rewrite !run_Config. cbn [fst]. now rewrite Hself.
  - rewrite !run_Config. cbn [fst].
    now rewrite (run_self _ w (Claims_writeFree ctx exchange query)).
  - intros c d tr. rewrite run_Config. cbn [fst].
    now rewrite (run_self _ _ (Claims_writeFree ctx exchange query)).
Qed.

(** C8. For every context, [OAuth2] returns the settings (client ID,
    client secret, the LinkedIn endpoint, the configured scopes, the
    redirect URL computed from the context) with a nil error, and leaves
    no trace; it has no path on which it returns an error, so it
    returns one at most when the redirect URL cannot be computed. *)
Theorem C8_OAuth2_settings (ctx : Context) (w : World) :
  run (LinkedIn.OAuth2 ctx) w =
    (Done
       (Some {| OAuth2ClientID := ClientID (config (self w));
                OAuth2ClientSecret := ClientSecret (config (self w));
                OAuth2Endpoint := linkedinEndpoint;
                OAuth2Scopes := Scope (config (self w));
                OAuth2RedirectURL :=
                  Redir (config (self w))
                        (OIDCRedirectURIBase (reg (self w)) ctx) |},
        None),
     w) /\
  (forall (settings : option OAuth2Config) (err : error),
      fst (run (LinkedIn.OAuth2 ctx) w) <> Done (settings, Some err)).
Proof.
  split; [reflexivity |].
  intros settings err H. cbn in H. discriminate H.
Qed.

(** C10. For every request, [AuthCodeURLOptions] returns the empty list
    of extra parameters of the authorization URL, and does nothing
    else. *)
Theorem C10_AuthCodeURLOptions_empty (r : Ider) (w : World) :
  run (LinkedIn.AuthCodeURLOptions r) w = (Done [], w).
Proof.
  reflexivity.
Qed.

End Frame.

Section ClaimsProperties.

Context {TY : Types} {R : Runtime}.

Lemma isOK_200 (status : Z) : status = 200%Z -> isOK status = true.
Proof.
  intros ->. reflexivity.
Qed.

(** Decoding one more member at the end of an object. *)
Lemma Decode_last_member (members : list (string * JSON.json))
  (kv : string * JSON.json) (old : LinkedInProfile) :
  JSON.Decode (JSON.Value (JSON.Object (members ++ [kv]))) old =
    decodeProfileMember (JSON.Decode (JSON.Value (JSON.Object members)) old) kv.
Proof.
  cbn. unfold JSON.unmarshal, unmarshalProfile.
  now rewrite fold_left_app.
Qed.

(** An object without a member for [locale] leaves the pointer as it
    is. *)
Lemma decodeProfileMember_keeps_locale
  (st : LinkedInProfile * option JSON.DecodeError) (k : string)
  (v : JSON.json) :
  JSON.keyIs "locale" k = false ->
  Locale (fst (decodeProfileMember st (k, v))) = Locale (fst st).
Proof.
  intros Hk. destruct st as [p err]. unfold decodeProfileMember.
  repeat match goal with
         | |- context [if JSON.keyIs ?tag k then _ else _] =>
           destruct (JSON.keyIs tag k) eqn:?
         | |- context [let '(_, _) := ?x in _] => destruct x
         end; try reflexivity.
  congruence.
Qed.

Lemma Decode_without_locale (members : list (string * JSON.json))
  (old : LinkedInProfile) :
  forallb (fun kv => negb (JSON.keyIs "locale" (fst kv))) members = true ->
  Locale (fst (JSON.Decode (JSON.Value (JSON.Object members)) old)) =
    Locale old.
Proof.
  cbn. unfold JSON.unmarshal, unmarshalProfile.
  change (Locale old) with (Locale (fst (old, @None JSON.DecodeError))).
  generalize (old, @None JSON.DecodeError).
  induction members as [| [k v] rest IH]; intros st H.
  - reflexivity.
  - change (negb (JSON.keyIs "locale" k) &&
            forallb (fun kv => negb (JSON.keyIs "locale" (fst kv))) rest = true)
      in H.
    apply andb_prop in H. destruct H as [Hk Hrest].
    change (fold_left decodeProfileMember ((k, v) :: rest) st)
      with (fold_left decodeProfileMember rest (decodeProfileMember st (k, v))).
    rewrite IH by exact Hrest.
    apply decodeProfileMember_keeps_locale.
    now destruct (JSON.keyIs "locale" k).
Qed.

(** C1 (as amended). When the profile endpoint answers HTTP 200 with the
    body of the scenario in which [email_verified] is the JSON boolean
    [true], [Claims] returns, without error, the claims with Subject
    "abc123", Issuer "https://login.linkedin.com/", Email
    "a@example.com", EmailVerified true, GivenName "Ann", LastName
    "Lee", Picture "http://img" and Locale "en-US". *)
Theorem C1_Claims_scenario (w : World) (ctx : Context) (exchange : Token)
  (query : Values) (req : Request) (n : nat) :
  endpointAnswers (self w) ctx exchange req n
    (inr {| StatusCode := 200;
            ResponseBody := scenarioBody (JSON.Bool true) |}) ->
  fst (run (LinkedIn.Claims ctx exchange query) w) =
    Done (Some {| Subject := "abc123";
                  Issuer := "https://login.linkedin.com/";
                  Email := "a@example.com";
                  GivenName := "Ann";
                  LastName := "Lee";
                  Picture := "http://img";
                  ClaimsEmailVerified := true;
                  ClaimsLocale := "en-US" |},
          None).
Proof.
  intros H.
  rewrite (Claims_ok w ctx exchange query req n _ _ H eq_refl eq_refl).
  reflexivity.
Qed.

(** C3. For every profile payload that decodes with the [Locale]
    pointer nil, [ProfileLocale] returns the empty string without a
    panic (it does not dereference the pointer), and the claims that
    [Claims] returns have the empty string as Locale. *)
Theorem C3_Locale_absent (w : World) (ctx : Context) (exchange : Token)
  (query : Values) (req : Request) (n : nat) (res : Response)
  (p : LinkedInProfile) :
  endpointAnswers (self w) ctx exchange req n (inr res) ->
  StatusCode res = 200%Z ->
  JSON.Decode (ResponseBody res) zeroProfile = (p, None) ->
  Locale p = None ->
  run (LinkedIn.ProfileLocale (Some p)) w = (Done "", w) /\
  exists c : Claims,
    fst (run (LinkedIn.Claims ctx exchange query) w) = Done (Some c, None) /\
    ClaimsLocale c = "".
Proof.
  intros H Hstatus Hdecode Hlocale. split.
  - cbn. now rewrite Hlocale.
  - exists (claimsOf p).
    rewrite (Claims_ok w ctx exchange query req n res p H
               (isOK_200 _ Hstatus) Hdecode).
    split; [reflexivity |].
    unfold claimsOf; cbn. now rewrite Hlocale.
Qed.

(** [ProfileLocale] of a profile that is there does not panic, with or
    without the locale. *)
Lemma ProfileLocale_returns (p : LinkedInProfile) (w : World) :
  exists locale : string,
    run (LinkedIn.ProfileLocale (Some p)) w = (Done locale, w).
Proof.
  cbn. destruct (Locale p) as [locale |]; cbn; eauto.
Qed.

(** A payload without a member for [locale] gives claims with the empty
    Locale. *)
Lemma Claims_payload_without_locale (w : World) (ctx : Context)
  (exchange : Token) (query : Values) (req : Request) (n : nat)
  (members : list (string * JSON.json)) (p : LinkedInProfile) :
  endpointAnswers (self w) ctx exchange req n
    (inr {| StatusCode := 200;
            ResponseBody := JSON.Value (JSON.Object members) |}) ->
  forallb (fun kv => negb (JSON.keyIs "locale" (fst kv))) members = true ->
  JSON.Decode (JSON.Value (JSON.Object members)) zeroProfile = (p, None) ->
  exists c : Claims,
    fst (run (LinkedIn.Claims ctx exchange query) w) = Done (Some c, None) /\
    ClaimsLocale c = "".
Proof.
  intros H Hkeys Hdecode. exists (claimsOf p).
  rewrite (Claims_ok w ctx exchange query req n _ p H eq_refl Hdecode).
  split; [reflexivity |].
  pose proof (Decode_without_locale members zeroProfile Hkeys) as Hnil.
  rewrite Hdecode in Hnil. cbn in Hnil.
  unfold claimsOf; cbn. now rewrite Hnil.
Qed.

(** C7 (as amended). For every HTTP 200 answer of the profile endpoint
    whose body decodes into the profile shape, [Claims] returns claims
    whose Issuer is the non-empty constant
    "https://login.linkedin.com/" and whose Subject is the [sub] of the
    payload as decoded, which is empty when the payload gives none. *)
Theorem C7_Subject_and_Issuer (w : World) (ctx : Context) (exchange : Token)
  (query : Values) (req : Request) (n : nat) (res : Response)
  (p : LinkedInProfile) :
  endpointAnswers (self w) ctx exchange req n (inr res) ->
  StatusCode res = 200%Z ->
  JSON.Decode (ResponseBody res) zeroProfile = (p, None) ->
  exists c : Claims,
    fst (run (LinkedIn.Claims ctx exchange query) w) = Done (Some c, None) /\
    Issuer c = "https://login.linkedin.com/" /\
    Issuer c <> "" /\
    Subject c = ID p.
Proof.
  intros H Hstatus Hdecode. exists (claimsOf p).
  rewrite (Claims_ok w ctx exchange query req n res p H
             (isOK_200 _ Hstatus) Hdecode).
  repeat split. cbn. discriminate.
Qed.

(** A key matches one tag at most. *)
Lemma keyIs_exclusive (tag other k : string) :
  JSON.keyIs tag k = true ->
  String.eqb (JSON.foldName tag) (JSON.foldName other) = false ->
  JSON.keyIs other k = false.
Proof.
  unfold JSON.keyIs. intros Hk Hne.
  apply String.eqb_eq in Hk. now rewrite Hk.
Qed.

(** What one member does to the field [EmailVerified]. *)
Lemma decodeProfileMember_verified
  (p : LinkedInProfile) (err : option JSON.DecodeError)
  (kv : string * JSON.json) :
  EmailVerified (fst (decodeProfileMember (p, err) kv)) =
    verifiedStep (EmailVerified p) kv.
Proof.
  destruct kv as [k v]. unfold decodeProfileMember, verifiedStep. cbn [fst snd].
  destruct (JSON.keyIs "family_name" k) eqn:K1.
  { rewrite (keyIs_exclusive _ "email_verified" _ K1 eq_refl).
    now destruct (JSON.storeString "family_name" v (LocalizedLastName p)). }
  destruct (JSON.keyIs "given_name" k) eqn:K2.
  { rewrite (keyIs_exclusive _ "email_verified" _ K2 eq_refl).
    now destruct (JSON.storeString "given_name" v (LocalizedFirstName p)). }
  destruct (JSON.keyIs "picture" k) eqn:K3.
  { rewrite (keyIs_exclusive _ "email_verified" _ K3 eq_refl).
    now destruct (JSON.storeString "picture" v (ProfilePicture p)). }
  destruct (JSON.keyIs "email" k) eqn:K4.
  { rewrite (keyIs_exclusive _ "email_verified" _ K4 eq_refl).
    now destruct (JSON.storeString "email" v (EmailAddress p)). }
  destruct (JSON.keyIs "email_verified" k) eqn:K5.
  { now destruct v. }
  destruct (JSON.keyIs "sub" k) eqn:K6.
  { now destruct (JSON.storeString "sub" v (ID p)). }
  destruct (JSON.keyIs "locale" k) eqn:K7.
  { now destruct (storeLocale v (Locale p)). }
  reflexivity.
Qed.

Lemma decodeProfile_verified (members : list (string * JSON.json))
  (st : LinkedInProfile * option JSON.DecodeError) :
  EmailVerified (fst (fold_left decodeProfileMember members st)) =
    fold_left verifiedStep members (EmailVerified (fst st)).
Proof.
  revert st. induction members as [| kv rest IH]; intros [p err].
  - reflexivity.
  - cbn [fold_left]. rewrite IH. f_equal.
    apply decodeProfileMember_verified.
Qed.

(** A recorded error stays. *)
Lemma decodeProfileMember_keeps_error
  (p : LinkedInProfile) (e : JSON.DecodeError) (kv : string * JSON.json) :
  snd (decodeProfileMember (p, Some e) kv) = Some e.
Proof.
  destruct kv as [k v]. unfold decodeProfileMember.
  repeat match goal with
         | |- context [if JSON.keyIs ?tag k then _ else _] =>
           destruct (JSON.keyIs tag k)
         | |- context [let '(_, _) := ?x in _] => destruct x
         end; reflexivity.
Qed.

Lemma decodeProfile_keeps_error (members : list (string * JSON.json))
  (p : LinkedInProfile) (e : JSON.DecodeError) :
  snd (fold_left decodeProfileMember members (p, Some e)) = Some e.
Proof.
  revert p. induction members as [| kv rest IH]; intros p.
  - reflexivity.
  - cbn [fold_left].
    pose proof (decodeProfileMember_keeps_error p e kv) as H.
    destruct (decodeProfileMember (p, Some e) kv) as [p' err'].
    cbn in H. subst err'. apply IH.
Qed.

(** A value under [email_verified] that is neither a boolean nor [null]
    records an error. *)
Lemma decodeProfileMember_rejects
  (st : LinkedInProfile * option JSON.DecodeError) (k : string)
  (v : JSON.json) :
  JSON.keyIs "email_verified" k = true ->
  boolOrNull v = false ->
  snd (decodeProfileMember st (k, v)) <> None.
Proof.
  intros Hk Hv. destruct st as [p [e |]].
  { rewrite decodeProfileMember_keeps_error. discriminate. }
  unfold decodeProfileMember.
  rewrite (keyIs_exclusive _ "family_name" _ Hk eq_refl).
  rewrite (keyIs_exclusive _ "given_name" _ Hk eq_refl).
  rewrite (keyIs_exclusive _ "picture" _ Hk eq_refl).
  rewrite (keyIs_exclusive _ "email" _ Hk eq_refl).
  rewrite Hk.
  destruct v; try discriminate Hv; cbn; discriminate.
Qed.

Lemma decodeProfile_rejects (members : list (string * JSON.json))
  (st : LinkedInProfile * option JSON.DecodeError) (k : string)
  (v : JSON.json) :
  In (k, v) members ->
  JSON.keyIs "email_verified" k = true ->
  boolOrNull v = false ->
  snd (fold_left decodeProfileMember members st) <> None.
Proof.
  intros Hin Hk Hv. revert st.
  induction members as [| kv rest IH]; intros st; [destruct Hin |].
  cbn [fold_left]. destruct Hin as [-> | Hin].
  - pose proof (decodeProfileMember_rejects st k v Hk Hv) as H.
    destruct (decodeProfileMember st (k, v)) as [p' [e |]].
    + rewrite decodeProfile_keeps_error. discriminate.
    + now elim H.
  - now apply IH.
Qed.

(** C2 (as amended). For every payload the profile endpoint answers
    with HTTP 200: when the payload decodes, [Claims] returns claims
    whose EmailVerified is the JSON boolean the payload gives for
    [email_verified] ([true] for [true], [false] for [false], and
    [false] when it gives none); and when the payload gives
    [email_verified] in any other encoding, among them the strings
    "true" and "false" and the numbers 1 and 0, it does not decode and
    [Claims] returns no claims but the internal-server error for the
    decode error. *)
Theorem C2_EmailVerified_encodings (w : World) (ctx : Context)
  (exchange : Token) (query : Values) (req : Request) (n : nat)
  (members : list (string * JSON.json)) :
  endpointAnswers (self w) ctx exchange req n
    (inr {| StatusCode := 200;
            ResponseBody := JSON.Value (JSON.Object members) |}) ->
  (forall p : LinkedInProfile,
      JSON.Decode (JSON.Value (JSON.Object members)) zeroProfile = (p, None) ->
      exists c : Claims,
        fst (run (LinkedIn.Claims ctx exchange query) w) =
          Done (Some c, None) /\
        ClaimsEmailVerified c = verifiedIn members) /\
  (forall (k : string) (v : JSON.json),
      In (k, v) members ->
      JSON.keyIs "email_verified" k = true ->
      boolOrNull v = false ->
      exists (e : JSON.DecodeError),
        fst (run (LinkedIn.Claims ctx exchange query) w) =
          Done (None,
                Some (internal (WithStack (WithStack (ErrDecode e)))))).
Proof.
  intros H. split.
  - intros p Hdecode. exists (claimsOf p).
    rewrite (Claims_ok w ctx exchange query req n _ p H eq_refl Hdecode).
    split; [reflexivity |].
    change (EmailVerified p = verifiedIn members).
    change p with (fst (p, @None JSON.DecodeError)). rewrite <- Hdecode.
    exact (decodeProfile_verified members (zeroProfile, None)).
  - intros k v Hin Hk Hv.
    destruct (JSON.Decode (JSON.Value (JSON.Object members)) zeroProfile)
      as [p [e |]] eqn:Hdecode.
    + exists e.
      now rewrite (Claims_bad_body w ctx exchange query req n _ p e H eq_refl
                     Hdecode).
    + exfalso.
      apply (decodeProfile_rejects members (zeroProfile, None) k v Hin Hk Hv).
      change (snd (JSON.Decode (JSON.Value (JSON.Object members)) zeroProfile)
              = None).
      now rewrite Hdecode.
Qed.

(** The client retried on a path with one round trip exactly when that
    round trip took two attempts or more. *)
Lemma retried_single (before rest : list Event) (req : Request) (n : nat) :
  roundTrips before = 0%nat ->
  roundTrips rest = 0%nat ->
  retried (before ++ RoundTrip req n :: rest) <-> (2 <= n)%nat.
Proof.
  assert (none : forall tr r m,
             roundTrips tr = 0%nat -> ~ In (RoundTrip r m) tr).
  { induction tr as [| e tr IH]; intros r m Hz Hin; [exact Hin |].
    destruct Hin as [-> | Hin]; [discriminate Hz |].
    destruct e; try discriminate Hz; exact (IH r m Hz Hin). }
  intros Hbefore Hrest. split.
  - intros [r [m [Hin Hm]]].
    apply in_app_or in Hin. destruct Hin as [Hin | [Heq | Hin]].
    + elim (none _ _ _ Hbefore Hin).
    + now inversion Heq; subst.
    + elim (none _ _ _ Hrest Hin).
  - intros Hn. exists req, n. split; [| exact Hn].
    apply in_or_app. right. now left.
Qed.

(** A status outside 2xx does not pass [logUpstreamError]. *)
Lemma is2xx_false_isOK (status : Z) :
  is2xx status = false -> isOK status = false.
Proof.
  unfold is2xx, isOK. intros H.
  destruct (status =? 200)%Z eqn:E; [| reflexivity].
  apply Z.eqb_eq in E. subst status. discriminate H.
Qed.

(** The retrying client makes at least one attempt. *)
Lemma retrying_attempts (retries : nat) (lost : error -> bool) (attempt : nat)
  (server : nat -> error + Response) :
  (S attempt <= attempts (retrying retries lost attempt server))%nat.
Proof.
  revert attempt. induction retries as [| rest IH]; intros attempt; cbn.
  - lia.
  - destruct (transient lost (server attempt)); cbn; [| lia].
    specialize (IH (S attempt)). lia.
Qed.

(** It makes a second attempt exactly when it has a retry left and the
    first attempt failed in a way it retries. *)
Lemma retrying_retried (retryMax : nat) (lost : error -> bool)
  (server : nat -> error + Response) :
  (2 <= attempts (retrying retryMax lost 0 server))%nat <->
  (1 <= retryMax)%nat /\ transient lost (server 0%nat) = true.
Proof.
  destruct retryMax as [| rest]; cbn.
  - split; [lia | intros [H _]; lia].
  - destruct (transient lost (server 0%nat)); cbn.
    + pose proof (retrying_attempts rest lost 1 server).
      split; [intros _; split; [lia | reflexivity] | intros _; lia].
    + split; [lia | intros [_ H]; discriminate H].
Qed.

(** What it hands back is a failure it retries only when its retries
    are used up. *)
Lemma retrying_gives_up (retries : nat) (lost : error -> bool)
  (attempt : nat) (server : nat -> error + Response) :
  transient lost (outcome (retrying retries lost attempt server)) = true ->
  attempts (retrying retries lost attempt server) = S (attempt + retries).
Proof.
  revert attempt. induction retries as [| rest IH]; intros attempt; cbn.
  - intros _. lia.
  - destruct (transient lost (server attempt)) eqn:E; cbn.
    + intros H. rewrite (IH (S attempt) H). lia.
    + intros H. rewrite E in H. discriminate H.
Qed.

(** C4 (as amended). The client is the retrying client of the
    specification: it tries again, up to [retryMax] times, after a
    network failure or a 5xx answer.  For every answer outside 2xx that
    this client hands to [fetch]: [fetch] returns the upstream error for
    that status and the body is never given to the JSON decoder;
    [Claims] returns no claims but the internal-server error for it;
    [fetch] calls the client once.  The request was retried exactly
    when the client had a retry to spend and the first attempt ended in
    a network failure or a 5xx answer.  So a 5xx answer (HTTP 500, say)
    reaches [fetch] only after all [retryMax] retries, at least one
    when [retryMax] is not zero; an answer outside 2xx that is not 5xx
    and came at the first attempt (HTTP 404, say) reaches it without
    any retry. *)
Theorem C4_non_2xx (w : World) (ctx : Context) (exchange : Token)
  (query : Values) (req : Request) (retryMax : nat) (lost : error -> bool)
  (upstream : Request -> nat -> error + Response) (res : Response) :
  profileRequest (self w) ctx exchange = inr req ->
  snd (authenticated (self w) ctx exchange) =
    retryingClient retryMax lost upstream ->
  outcome (retrying retryMax lost 0 (upstream req)) = inr res ->
  is2xx (StatusCode res) = false ->
  let n := attempts (retrying retryMax lost 0 (upstream req)) in
  let events := eventsBadStatus req n (StatusCode res) in
  run (LinkedIn.Claims ctx exchange query) w =
    (Done (None, Some (internal (WithStack (ErrUpstream (StatusCode res))))),
     after w events) /\
  (exists fetchEvents : list Event,
      run (LinkedIn.fetch (fst (authenticated (self w) ctx exchange))
             (snd (authenticated (self w) ctx exchange)) ProfileUrl
             zeroProfile) w =
        (Done (zeroProfile, Some (ErrUpstream (StatusCode res))),
         after w fetchEvents) /\
      decoded fetchEvents = false) /\
  decoded events = false /\
  roundTrips events = 1%nat /\
  (retried events <->
   (1 <= retryMax)%nat /\ transient lost (upstream req 0%nat) = true) /\
  (is5xx (StatusCode res) = true ->
   n = S retryMax /\ ((1 <= retryMax)%nat -> retried events)) /\
  (is5xx (StatusCode res) = false ->
   upstream req 0%nat = inr res ->
   n = 1%nat /\ ~ retried events).
Proof.
  intros Hreq Hclient Hout Hstatus n events.
  assert (Hdo : Do (snd (authenticated (self w) ctx exchange)) req =
                {| attempts := n; outcome := inr res |}).
  { rewrite Hclient. cbn. subst n.
    destruct (retrying retryMax lost 0 (upstream req)) as [m out].
    cbn in Hout |- *. now rewrite Hout. }
  assert (H : endpointAnswers (self w) ctx exchange req n (inr res))
    by (split; assumption).
  pose proof (is2xx_false_isOK _ Hstatus) as Hrefused.
  destruct (endpointAnswers_fetch w ctx exchange req n _ H) as [Hreq' Hdo'].
  assert (Hretried : retried events <-> (2 <= n)%nat).
  { apply (retried_single [SpanStarted claimsSpan; SpanStarted fetchSpan]);
      reflexivity. }
  assert (Hpolicy : (2 <= n)%nat <->
                    (1 <= retryMax)%nat /\
                    transient lost (upstream req 0%nat) = true)
    by apply retrying_retried.
  split; [exact (Claims_bad_status w ctx exchange query req n res H Hrefused) |].
  split.
  { eexists. split.
    - exact (fetch_bad_status w _ _ ProfileUrl zeroProfile req n res
               Hreq' Hdo' Hrefused).
    - reflexivity. }
  split; [reflexivity |]. split; [reflexivity |].
  split; [now rewrite Hretried |].
  split.
  - intros H5.
    assert (Hn : n = S retryMax).
    { subst n. rewrite retrying_gives_up; [reflexivity |].
      rewrite Hout. exact H5. }
    split; [exact Hn |].
    intros Hbudget. apply Hretried. lia.
  - intros H5 Hfirst.
    assert (Hn : n = 1%nat).
    { subst n. destruct retryMax as [| rest]; cbn; [reflexivity |].
      rewrite Hfirst. cbn. now rewrite H5. }
    split; [exact Hn |].
    intros Habs. apply Hretried in Habs. lia.
Qed.

(** C5 (as amended). For every HTTP 200 answer of the profile endpoint
    whose body does not decode into the profile shape, [fetch] returns
    the decode error with a stack, and [Claims] returns no claims but an
    error of the generic internal-server class, as for every other
    failure: [herodot.ErrInternalServerError] with its code, status and
    message, whose reason is the text of the decode error.  The client
    is called once, before the body is decoded, and not again after the
    decode failure. *)
Theorem C5_malformed_body (w : World) (ctx : Context) (exchange : Token)
  (query : Values) (req : Request) (n : nat) (res : Response)
  (p : LinkedInProfile) (e : JSON.DecodeError) :
  endpointAnswers (self w) ctx exchange req n (inr res) ->
  StatusCode res = 200%Z ->
  JSON.Decode (ResponseBody res) zeroProfile = (p, Some e) ->
  let events := eventsBadBody req n e in
  let returned := internal (WithStack (WithStack (ErrDecode e))) in
  run (LinkedIn.Claims ctx exchange query) w =
    (Done (None, Some returned), after w events) /\
  (exists fetchEvents : list Event,
      run (LinkedIn.fetch (fst (authenticated (self w) ctx exchange))
             (snd (authenticated (self w) ctx exchange)) ProfileUrl
             zeroProfile) w =
        (Done (p, Some (WithStack (ErrDecode e))), after w fetchEvents) /\
      roundTrips fetchEvents = 1%nat /\
      roundTrips (afterDecode fetchEvents) = 0%nat) /\
  classify returned = InternalServerError /\
  (exists d : DefaultError,
      returned = WithStack (ErrHerodot d) /\
      CodeField d = CodeField ErrInternalServerError /\
      StatusField d = StatusField ErrInternalServerError /\
      ErrorField d = ErrorField ErrInternalServerError /\
      ReasonField d = decodeErrorText e) /\
  roundTrips events = 1%nat /\
  roundTrips (afterDecode events) = 0%nat.
Proof.
  intros H Hstatus Hdecode events returned.
  destruct (endpointAnswers_fetch w ctx exchange req n _ H) as [Hreq Hdo].
  split.
  { exact (Claims_bad_body w ctx exchange query req n res p e H
             (isOK_200 _ Hstatus) Hdecode). }
  split.
  { eexists. split; [| split].
    - exact (fetch_bad_body w _ _ ProfileUrl zeroProfile p req n res e
               Hreq Hdo (isOK_200 _ Hstatus) Hdecode).
    - reflexivity.
    - reflexivity. }
  split; [reflexivity |].
  split; [| split; reflexivity].
  eexists. repeat split.
Qed.

(** Every call of [Claims] runs on one of its five paths. *)
Lemma Claims_paths (w : World) (ctx : Context) (exchange : Token)
  (query : Values) :
  exists (result : option Claims * option error) (events : list Event),
    run (LinkedIn.Claims ctx exchange query) w = (Done result, after w events) /\
    match result with
    | (Some c, None) =>
      exists req n, events = eventsOk req n
    | (None, Some err) =>
      exists fetched : error,
        err = internal (WithStack fetched) /\
        In (SpanEnded fetchSpan (Some fetched)) events /\
        In (SpanEnded claimsSpan (Some err)) events
    | _ => False
    end.
Proof.
  destruct (profileRequest (self w) ctx exchange) as [err | req] eqn:Hreq.
  { eexists. eexists. split.
    - exact (Claims_no_request w ctx exchange query err Hreq).
    - exists (WithStack err). cbn. tauto. }
  destruct (Do (snd (authenticated (self w) ctx exchange)) req)
    as [n out] eqn:Hdo.
  assert (H : endpointAnswers (self w) ctx exchange req n out)
    by (split; assumption).
  destruct out as [err | res].
  { eexists. eexists. split.
    - exact (Claims_no_response w ctx exchange query req n err H).
    - exists (WithStack err). cbn. tauto. }
  destruct (isOK (StatusCode res)) eqn:Hstatus.
  2:{ eexists. eexists. split.
      - exact (Claims_bad_status w ctx exchange query req n res H Hstatus).
      - exists (ErrUpstream (StatusCode res)). cbn. tauto. }
  destruct (JSON.Decode (ResponseBody res) zeroProfile) as [p [e |]] eqn:Hd.
  - eexists. eexists. split.
    + exact (Claims_bad_body w ctx exchange query req n res p e H Hstatus Hd).
    + exists (WithStack (ErrDecode e)). cbn. tauto.
  - eexists. eexists. split.
    + exact (Claims_ok w ctx exchange query req n res p H Hstatus Hd).
    + cbn. eauto.
Qed.

(** C6 (as amended). For every failure inside [Claims], no claims are
    returned and the error is [herodot.ErrInternalServerError] with a
    reason: its code, status and message are the generic ones, whatever
    failed, and [Error()] gives the generic message.  Its reason is the
    text of the error [fetch] ended with, so the upstream detail
    travels to the caller in the reason field; it is also recorded on
    the span of [fetch], and the returned error on the span of
    [Claims]. *)
Theorem C6_failures_are_internal (w w' : World) (ctx : Context)
  (exchange : Token) (query : Values) (result : option Claims)
  (err : error) :
  run (LinkedIn.Claims ctx exchange query) w = (Done (result, Some err), w') ->
  result = None /\
  Error err = ErrorField ErrInternalServerError /\
  exists (fetched : error) (d : DefaultError) (events : list Event),
    err = WithStack (ErrHerodot d) /\
    CodeField d = CodeField ErrInternalServerError /\
    StatusField d = StatusField ErrInternalServerError /\
    ErrorField d = ErrorField ErrInternalServerError /\
    ReasonField d = Error fetched /\
    w' = after w events /\
    In (SpanEnded fetchSpan (Some fetched)) events /\
    In (SpanEnded claimsSpan (Some err)) events.
Proof.
  intros Hrun.
  destruct (Claims_paths w ctx exchange query)
    as [[c failed] [events [Hpath Hshape]]].
  rewrite Hpath in Hrun.
  assert (Heq : c = result /\ failed = Some err /\ w' = after w events)
    by (inversion Hrun; auto).
  destruct Heq as (-> & -> & ->). clear Hrun.
  destruct result as [c |].
  { destruct Hshape as []. }
  destruct Hshape as [fetched [-> [Hfetch Hclaims]]].
  repeat split.
  exists fetched. eexists. exists events. repeat split.
  - exact Hfetch.
  - exact Hclaims.
Qed.

End ClaimsProperties.

(** * The scenarios over the mocked upstream *)

(** Scenario of C1 with the native boolean: the claims come back. *)
Lemma C1_Claims_scenario_witness :
  let reply := Mock.answers 200 (scenarioBody (JSON.Bool true)) in
  @endpointAnswers Mock.types Mock.runtime (Mock.provider reply)
    Mock.background "access-token" Mock.request 1 (outcome reply) /\
  fst (Mock.claims reply) = Done (Some (scenarioClaims "en-US"), None).
Proof.
  intros reply.
  assert (H : @endpointAnswers Mock.types Mock.runtime (Mock.provider reply)
                Mock.background "access-token" Mock.request 1 (outcome reply))
    by (split; reflexivity).
  split; [exact H |].
  exact (@C1_Claims_scenario Mock.types Mock.runtime (Mock.world reply)
           Mock.background "access-token" [] Mock.request 1 H).
Defined.

(** Scenario of C1 as the claim gives it, with [email_verified] the
    string "true": the endpoint answers HTTP 200 with that body, and
    [Claims] returns no claims but an error. *)
Lemma C1_string_verified_is_rejected :
  let reply := Mock.answers 200 (scenarioBody (JSON.Str "true")) in
  @endpointAnswers Mock.types Mock.runtime (Mock.provider reply)
    Mock.background "access-token" Mock.request 1 (outcome reply) /\
  fst (Mock.claims reply) =
    Done (None,
          Some (WithStack (ErrHerodot
                  (WithReason Mock.internalServerError
                     "json: cannot unmarshal into field email_verified")))) /\
  fst (Mock.claims reply) <> Done (Some (scenarioClaims "en-US"), None).
Proof.
  intros reply. split; [split; reflexivity |].
  split; [reflexivity |].
  vm_compute. discriminate.
Qed.

(** The encodings of C2 over the mocked upstream: the payload of the
    scenario with the native boolean. *)
Lemma C2_EmailVerified_encodings_witness :
  let reply := Mock.answers 200 (scenarioBody (JSON.Bool true)) in
  @endpointAnswers Mock.types Mock.runtime (Mock.provider reply)
    Mock.background "access-token" Mock.request 1 (outcome reply) /\
  (exists c : Claims,
      fst (Mock.claims reply) = Done (Some c, None) /\
      ClaimsEmailVerified c = true).
Proof.
  intros reply.
  assert (H : @endpointAnswers Mock.types Mock.runtime (Mock.provider reply)
                Mock.background "access-token" Mock.request 1 (outcome reply))
    by (split; reflexivity).
  split; [exact H |].
  exact (proj1
    (@C2_EmailVerified_encodings Mock.types Mock.runtime (Mock.world reply)
       Mock.background "access-token" [] Mock.request 1
       (scenarioMembers (JSON.Bool true) ++
        [("locale", JSON.Object [("language", JSON.Str "en-US")])])
       H)
    (fst (JSON.Decode (scenarioBody (JSON.Bool true)) zeroProfile))
    eq_refl).
Defined.

(** C2 as the claim gives it: with the string "true" and with the
    number 1 behind [email_verified], [Claims] returns no claims, so
    none with EmailVerified true. *)
Lemma C2_string_and_number_are_rejected :
  fst (Mock.claims (Mock.answers 200 (scenarioBody (JSON.Str "true")))) =
    Done (None,
          Some (WithStack (ErrHerodot
                  (WithReason Mock.internalServerError
                     "json: cannot unmarshal into field email_verified")))) /\
  fst (Mock.claims (Mock.answers 200 (scenarioBody (JSON.Number "1")))) =
    Done (None,
          Some (WithStack (ErrHerodot
                  (WithReason Mock.internalServerError
                     "json: cannot unmarshal into field email_verified")))) /\
  ~ (exists c : Claims,
        fst (Mock.claims (Mock.answers 200 (scenarioBody (JSON.Str "true")))) =
          Done (Some c, None) /\
        ClaimsEmailVerified c = true).
Proof.
  split; [reflexivity |]. split; [reflexivity |].
  intros [c [H _]]. vm_compute in H. discriminate H.
Qed.

(** Scenario of C3: the payload without the member [locale]. *)
Lemma C3_Locale_absent_witness :
  let reply := Mock.answers 200 (scenarioBodyNoLocale (JSON.Bool true)) in
  @endpointAnswers Mock.types Mock.runtime (Mock.provider reply)
    Mock.background "access-token" Mock.request 1 (outcome reply) /\
  Locale (fst (JSON.Decode (scenarioBodyNoLocale (JSON.Bool true))
                 zeroProfile)) = None /\
  run (@LinkedIn.ProfileLocale Mock.types
         (Some (fst (JSON.Decode (scenarioBodyNoLocale (JSON.Bool true))
                       zeroProfile))))
      (Mock.world reply) = (Done "", Mock.world reply) /\
  exists c : Claims,
    fst (Mock.claims reply) = Done (Some c, None) /\ ClaimsLocale c = "".
Proof.
  intros reply.
  split; [split; reflexivity |].
  split; [reflexivity |].
  refine (@C3_Locale_absent Mock.types Mock.runtime (Mock.world reply)
            Mock.background "access-token" [] Mock.request 1
            {| StatusCode := 200;
               ResponseBody := scenarioBodyNoLocale (JSON.Bool true) |}
            (fst (JSON.Decode (scenarioBodyNoLocale (JSON.Bool true))
                    zeroProfile))
            _ _ _ _).
  - split; reflexivity.
  - reflexivity.
  - reflexivity.
  - reflexivity.
Defined.

(** Scenario of C4: an upstream that answers HTTP 500 to every attempt,
    behind a client with three retries. *)
Lemma C4_non_2xx_witness :
  let res := {| StatusCode := 500; ResponseBody := JSON.Malformed "" |} in
  let w := MockRetrying.world 3 (MockRetrying.always 500) in
  let events := @eventsBadStatus Mock.types Mock.runtime Mock.request 4 500 in
  @profileRequest Mock.types Mock.runtime (self w) Mock.background
    "access-token" = inr Mock.request /\
  snd (@authenticated Mock.types Mock.runtime (self w) Mock.background
         "access-token") =
    retryingClient 3 MockRetrying.lost (fun _ => MockRetrying.always 500) /\
  outcome (retrying 3 MockRetrying.lost 0 (MockRetrying.always 500)) =
    inr res /\
  is2xx 500 = false /\
  MockRetrying.claims 3 (MockRetrying.always 500) =
    (Done (None,
           Some (WithStack (ErrHerodot
                   (WithReason Mock.internalServerError
                      "unexpected upstream status")))),
     after w events) /\
  decoded events = false /\
  roundTrips events = 1%nat /\
  retried events.
Proof.
  intros res w events.
  pose proof (@C4_non_2xx Mock.types Mock.runtime w Mock.background
                "access-token" [] Mock.request 3 MockRetrying.lost
                (fun _ => MockRetrying.always 500) res
                eq_refl eq_refl eq_refl eq_refl) as T.
  cbv zeta in T.
  destruct T as (T1 & _ & T3 & T4 & _ & T6 & _).
  split; [reflexivity |]. split; [reflexivity |]. split; [reflexivity |].
  split; [reflexivity |].
  split; [exact T1 |]. split; [exact T3 |]. split; [exact T4 |].
  apply (proj2 (T6 eq_refl)). lia.
Defined.

(** C4 as the claim gives it, at HTTP 404: the retrying client, with
    three retries to spend, hands the answer back after its one
    attempt; [fetch] refuses the status, [Claims] fails, and nothing was
    retried. *)
Lemma C4_client_errors_are_not_retried :
  let res := {| StatusCode := 404; ResponseBody := JSON.Malformed "" |} in
  let w := MockRetrying.world 3 (MockRetrying.always 404) in
  snd (@authenticated Mock.types Mock.runtime (self w) Mock.background
         "access-token") =
    retryingClient 3 MockRetrying.lost (fun _ => MockRetrying.always 404) /\
  retrying 3 MockRetrying.lost 0 (MockRetrying.always 404) =
    {| attempts := 1; outcome := inr res |} /\
  is2xx (StatusCode res) = false /\
  fst (MockRetrying.claims 3 (MockRetrying.always 404)) =
    Done (None,
          Some (WithStack (ErrHerodot
                  (WithReason Mock.internalServerError
                     "unexpected upstream status")))) /\
  decoded (trace (snd (MockRetrying.claims 3 (MockRetrying.always 404)))) =
    false /\
  ~ retried (trace (snd (MockRetrying.claims 3 (MockRetrying.always 404)))).
Proof.
  intros res w.
  split; [reflexivity |]. split; [reflexivity |]. split; [reflexivity |].
  split; [reflexivity |]. split; [reflexivity |].
  intros [req [n [Hin Hn]]].
  vm_compute in Hin.
  repeat (destruct Hin as [Hin | Hin]; [try discriminate Hin |]).
  - inversion Hin; subst. lia.
  - exact Hin.
Qed.

(** Scenario of C5: HTTP 200 with a body that is not JSON. *)
Lemma C5_malformed_body_witness :
  let res := {| StatusCode := 200;
                ResponseBody := JSON.Malformed "invalid character" |} in
  let reply := Mock.answers 200 (JSON.Malformed "invalid character") in
  let e := JSON.SyntaxError "invalid character" in
  let events := @eventsBadBody Mock.types Mock.runtime Mock.request 1 e in
  @endpointAnswers Mock.types Mock.runtime (Mock.provider reply)
    Mock.background "access-token" Mock.request 1 (inr res) /\
  JSON.Decode (ResponseBody res) zeroProfile = (zeroProfile, Some e) /\
  Mock.claims reply =
    (Done (None,
           Some (WithStack (ErrHerodot
                   (WithReason Mock.internalServerError
                      "invalid character")))),
     after (Mock.world reply) events) /\
  roundTrips events = 1%nat /\
  roundTrips (afterDecode events) = 0%nat.
Proof.
  intros res reply e events.
  assert (H : @endpointAnswers Mock.types Mock.runtime (Mock.provider reply)
                Mock.background "access-token" Mock.request 1 (inr res))
    by (split; reflexivity).
  split; [exact H |]. split; [reflexivity |].
  pose proof (@C5_malformed_body Mock.types Mock.runtime (Mock.world reply)
                Mock.background "access-token" [] Mock.request 1 res
                zeroProfile e H eq_refl eq_refl) as T.
  cbv zeta in T.
  destruct T as (T1 & _ & _ & _ & T5 & T6).
  split; [exact T1 |]. split; [exact T5 | exact T6].
Defined.

(** C5 as the claim gives it: HTTP 200 with a body that is not JSON.
    The error [Claims] returns is not of the class of malformed upstream
    responses: it is the generic internal-server error, the very error,
    but for its reason, that comes back when the upstream cannot be
    reached. *)
Lemma C5_returned_error_is_internal :
  let reply := Mock.answers 200 (JSON.Malformed "invalid character") in
  let returned :=
    WithStack (ErrHerodot
      (WithReason Mock.internalServerError "invalid character")) in
  @endpointAnswers Mock.types Mock.runtime (Mock.provider reply)
    Mock.background "access-token" Mock.request 1 (outcome reply) /\
  fst (Mock.claims reply) = Done (None, Some returned) /\
  classify returned = InternalServerError /\
  classify returned <> MalformedUpstreamResponse /\
  fst (Mock.claims (Mock.unreachable "invalid character")) =
    Done (None, Some returned).
Proof.
  intros reply returned.
  split; [split; reflexivity |].
  split; [reflexivity |]. split; [reflexivity |].
  split; [discriminate | reflexivity].
Qed.

(** Scenario of C6: the upstream cannot be reached. *)
Lemma C6_failures_are_internal_witness :
  let reply := Mock.unreachable "connection refused" in
  let err :=
    WithStack (ErrHerodot
      (WithReason Mock.internalServerError "connection refused")) in
  Mock.claims reply =
    (Done (None, Some err),
     after (Mock.world reply)
       (@eventsNoResponse Mock.types Mock.runtime Mock.request 1
          (ErrTransport "connection refused"))) /\
  @Error Mock.types Mock.runtime err = ErrorField Mock.internalServerError.
Proof.
  intros reply err.
  split; [reflexivity |].
  exact (proj1 (proj2
    (@C6_failures_are_internal Mock.types Mock.runtime (Mock.world reply)
       (after (Mock.world reply)
          (@eventsNoResponse Mock.types Mock.runtime Mock.request 1
             (ErrTransport "connection refused")))
       Mock.background "access-token" [] None err eq_refl))).
Defined.

(** C6 as the claim gives it: the text of the upstream failure is the
    reason of the error the caller gets, so another failure gives
    another error. *)
Lemma C6_reason_carries_upstream_detail :
  let detail := "dial tcp 10.0.0.7:443: connect: connection refused" in
  fst (Mock.claims (Mock.unreachable detail)) =
    Done (None,
          Some (WithStack (ErrHerodot
                  {| CodeField := 500;
                     StatusField := "Internal Server Error";
                     ErrorField := "An internal server error occurred";
                     ReasonField := detail |}))) /\
  fst (Mock.claims (Mock.unreachable detail)) <>
    fst (Mock.claims (Mock.unreachable "context deadline exceeded")).
Proof.
  intros detail. split; [reflexivity |].
  vm_compute. discriminate.
Qed.

(** Scenario of C7 with the payload of the scenario. *)
Lemma C7_Subject_and_Issuer_witness :
  let res := {| StatusCode := 200;
                ResponseBody := scenarioBody (JSON.Bool true) |} in
  let reply := Mock.answers 200 (scenarioBody (JSON.Bool true)) in
  let p := fst (JSON.Decode (scenarioBody (JSON.Bool true)) zeroProfile) in
  @endpointAnswers Mock.types Mock.runtime (Mock.provider reply)
    Mock.background "access-token" Mock.request 1 (inr res) /\
  JSON.Decode (ResponseBody res) zeroProfile = (p, None) /\
  exists c : Claims,
    fst (Mock.claims reply) = Done (Some c, None) /\
    Issuer c = "https://login.linkedin.com/" /\
    Issuer c <> "" /\
    Subject c = "abc123".
Proof.
  intros res reply p.
  assert (H : @endpointAnswers Mock.types Mock.runtime (Mock.provider reply)
                Mock.background "access-token" Mock.request 1 (inr res))
    by (split; reflexivity).
  split; [exact H |]. split; [reflexivity |].
  exact (@C7_Subject_and_Issuer Mock.types Mock.runtime (Mock.world reply)
           Mock.background "access-token" [] Mock.request 1 res p
           H eq_refl eq_refl).
Defined.

(** C7 as the claim gives it: HTTP 200 with the body [{}] decodes, and
    the claims that come back have an empty Subject. *)
Lemma C7_empty_Subject :
  let reply := Mock.answers 200 (JSON.Value (JSON.Object [])) in
  @endpointAnswers Mock.types Mock.runtime (Mock.provider reply)
    Mock.background "access-token" Mock.request 1 (outcome reply) /\
  fst (Mock.claims reply) =
    Done (Some {| Subject := "";
                  Issuer := "https://login.linkedin.com/";
                  Email := "";
                  GivenName := "";
                  LastName := "";
                  Picture := "";
                  ClaimsEmailVerified := false;
                  ClaimsLocale := "" |},
          None) /\
  ~ (exists c : Claims,
        fst (Mock.claims reply) = Done (Some c, None) /\ Subject c <> "").
Proof.
  intros reply. split; [split; reflexivity |].
  split; [reflexivity |].
  intros [c [H Hs]]. vm_compute in H.
  injection H as <-. now apply Hs.
Qed.

(** * More on [fetch], [Profile] and [Claims] *)

Section FetchProperties.

Context {TY : Types} {R : Runtime}.

Ltac settle_trace :=
  unfold after, claimsSpan, fetchSpan; cbn;
  repeat rewrite <- app_assoc; cbn.

(** [fetch], path by path. *)
Lemma fetch_run {T : Type} `{JSON.Unmarshal T} (w : World) (ctx : Context)
  (client : Client) (url : string) (result : T) :
  run (LinkedIn.fetch ctx client url result) w =
    match NewRequestWithContext (TracerStart (reg (self w)) ctx fetchSpan)
            MethodGet url with
    | inl err =>
      (Done (result, Some (WithStack err)),
       after w [SpanStarted fetchSpan;
                SpanEnded fetchSpan (Some (WithStack err))])
    | inr req =>
      match outcome (Do client req) with
      | inl err =>
        (Done (result, Some (WithStack err)),
         after w [SpanStarted fetchSpan;
                  RoundTrip req (attempts (Do client req));
                  SpanEnded fetchSpan (Some (WithStack err))])
      | inr res =>
        if isOK (StatusCode res) then
          match JSON.Decode (ResponseBody res) result with
          | (decoded, Some e) =>
            (Done (decoded, Some (WithStack (ErrDecode e))),
             after w [SpanStarted fetchSpan;
                      RoundTrip req (attempts (Do client req));
                      BodyDecoded;
                      BodyClosed;
                      SpanEnded fetchSpan (Some (WithStack (ErrDecode e)))])
          | (decoded, None) =>
            (Done (decoded, None),
             after w [SpanStarted fetchSpan;
                      RoundTrip req (attempts (Do client req));
                      BodyDecoded;
                      BodyClosed;
                      SpanEnded fetchSpan None])
          end
        else
          (Done (result, Some (ErrUpstream (StatusCode res))),
           after w [SpanStarted fetchSpan;
                    RoundTrip req (attempts (Do client req));
                    UpstreamLogged (StatusCode res);
                    BodyClosed;
                    SpanEnded fetchSpan (Some (ErrUpstream (StatusCode res)))])
      end
    end.
Proof.
  unfold LinkedIn.fetch, Start, End, ClientDo, perform, fetchSpan. cbn.
  destruct (NewRequestWithContext _ MethodGet url) as [err | req]; cbn.
  { settle_trace. reflexivity. }
  destruct (outcome (Do client req)) as [err | res]; cbn.
  { settle_trace. reflexivity. }
  unfold logUpstreamError.
  destruct (isOK (StatusCode res)); cbn.
  - destruct (JSON.Decode (ResponseBody res) result) as [decoded [e |]]; cbn;
      settle_trace; reflexivity.
  - settle_trace. reflexivity.
Qed.

(** A request that was built is the GET the caller asked for, bound to
    the context it was built with. *)
Lemma NewRequestWithContext_shape (ctx : Context) (method url : string)
  (req : Request) :
  NewRequestWithContext ctx method url = inr req ->
  Method req = method /\ RequestURL req = url /\ RequestContext req = ctx.
Proof.
  unfold NewRequestWithContext.
  destruct (requestError method url); intros Heq; [discriminate Heq |].
  injection Heq as <-. repeat split.
Qed.

(** [fetch] returns. *)
Lemma fetch_returns {T : Type} `{JSON.Unmarshal T} (w : World)
  (ctx : Context) (client : Client) (url : string) (result : T) :
  exists (r : T) (err : option error) (events : list Event),
    run (LinkedIn.fetch ctx client url result) w =
      (Done (r, err), after w events).
Proof.
  rewrite fetch_run.
  destruct (NewRequestWithContext _ MethodGet url) as [err | req];
    [do 3 eexists; reflexivity |].
  destruct (outcome (Do client req)) as [err | res];
    [do 3 eexists; reflexivity |].
  destruct (isOK (StatusCode res)); [| do 3 eexists; reflexivity].
  destruct (JSON.Decode (ResponseBody res) result) as [decoded [e |]];
    do 3 eexists; reflexivity.
Qed.

(** X1. [fetch] never panics, whatever the client and the upstream do:
    it returns, its trace starts with the start of its span and ends
    with the end of that span, no other span event lies between, and
    the error recorded on the span is exactly the error returned. *)
Theorem X1_fetch_span_discipline {T : Type} `{JSON.Unmarshal T} (w : World)
  (ctx : Context) (client : Client) (url : string) (result : T) :
  exists (r : T) (err : option error) (middle : list Event),
    run (LinkedIn.fetch ctx client url result) w =
      (Done (r, err),
       after w (SpanStarted fetchSpan :: middle ++ [SpanEnded fetchSpan err])) /\
    existsb isSpanEvent middle = false.
Proof.
  rewrite fetch_run.
  destruct (NewRequestWithContext _ MethodGet url) as [err | req].
  { exists result, (Some (WithStack err)), []. split; reflexivity. }
  destruct (outcome (Do client req)) as [err | res].
  { exists result, (Some (WithStack err)),
      [RoundTrip req (attempts (Do client req))]. split; reflexivity. }
  destruct (isOK (StatusCode res)).
  - destruct (JSON.Decode (ResponseBody res) result) as [decoded [e |]].
    + exists decoded, (Some (WithStack (ErrDecode e))),
        [RoundTrip req (attempts (Do client req)); BodyDecoded; BodyClosed].
      split; reflexivity.
    + exists decoded, None,
        [RoundTrip req (attempts (Do client req)); BodyDecoded; BodyClosed].
      split; reflexivity.
  - exists result, (Some (ErrUpstream (StatusCode res))),
      [RoundTrip req (attempts (Do client req));
       UpstreamLogged (StatusCode res); BodyClosed].
    split; reflexivity.
Qed.

(** X2. [fetch] sends one request at most.  A request it sends is a GET
    to the URL it was given, bound to the context of its span, and it
    goes to the client it was given; when the request cannot be built,
    nothing is sent. *)
Theorem X2_fetch_one_request {T : Type} `{JSON.Unmarshal T} (w : World)
  (ctx : Context) (client : Client) (url : string) (result : T) :
  exists events : list Event,
    snd (run (LinkedIn.fetch ctx client url result) w) = after w events /\
    (roundTrips events <= 1)%nat /\
    (forall (req : Request) (n : nat),
        In (RoundTrip req n) events ->
        Method req = "GET" /\
        RequestURL req = url /\
        RequestContext req = TracerStart (reg (self w)) ctx fetchSpan /\
        n = attempts (Do client req)) /\
    (forall err : error,
        NewRequestWithContext (TracerStart (reg (self w)) ctx fetchSpan)
          MethodGet url = inl err ->
        roundTrips events = 0%nat).
Proof.
  rewrite fetch_run.
  destruct (NewRequestWithContext _ MethodGet url) as [err | req] eqn:Hreq.
  { eexists. split; [reflexivity |]. cbn. split; [lia |]. split.
    - intros req n [Hin | [Hin | []]]; discriminate Hin.
    - reflexivity. }
  apply NewRequestWithContext_shape in Hreq.
  destruct Hreq as (Hm & Hu & Hc).
  assert (Hone : forall (rest : list Event) (r : Request) (n : nat),
             (forall r' n', ~ In (RoundTrip r' n') rest) ->
             In (RoundTrip r n)
                (SpanStarted fetchSpan ::
                 RoundTrip req (attempts (Do client req)) :: rest) ->
             r = req /\ n = attempts (Do client req)).
  { intros rest r n Hrest [Hin | [Hin | Hin]].
    - discriminate Hin.
    - now injection Hin as <- <-.
    - elim (Hrest _ _ Hin). }
  assert (Hfinish : forall rest : list Event,
             roundTrips rest = 0%nat ->
             (forall r' n', ~ In (RoundTrip r' n') rest) ->
             (roundTrips (SpanStarted fetchSpan ::
                          RoundTrip req (attempts (Do client req)) :: rest)
              <= 1)%nat /\
             (forall (r : Request) (n : nat),
                 In (RoundTrip r n)
                    (SpanStarted fetchSpan ::
                     RoundTrip req (attempts (Do client req)) :: rest) ->
                 Method r = "GET" /\
                 RequestURL r = url /\
                 RequestContext r = TracerStart (reg (self w)) ctx fetchSpan /\
                 n = attempts (Do client r)) /\
             (forall err : error,
                 @inr error Request req = inl err ->
                 roundTrips (SpanStarted fetchSpan ::
                             RoundTrip req (attempts (Do client req)) :: rest)
                 = 0%nat)).
  { intros rest Hz Hrest. split; [cbn; rewrite Hz; lia |]. split.
    - intros r n Hin. destruct (Hone rest r n Hrest Hin) as [-> ->].
      repeat split; assumption.
    - intros err Habs. discriminate Habs. }
  destruct (outcome (Do client req)) as [err | res].
  { eexists. split; [reflexivity |]. apply Hfinish; [reflexivity |].
    intros r' n' [Hin | []]. discriminate Hin. }
  destruct (isOK (StatusCode res)).
  - destruct (JSON.Decode (ResponseBody res) result) as [decoded [e |]];
      (eexists; split; [reflexivity |]; apply Hfinish; [reflexivity |];
       intros r' n' Hin; cbn in Hin;
       repeat (destruct Hin as [Hin | Hin]; [discriminate Hin |]);
       exact Hin).
  - eexists. split; [reflexivity |]. apply Hfinish; [reflexivity |].
    intros r' n' Hin; cbn in Hin.
    repeat (destruct Hin as [Hin | Hin]; [discriminate Hin |]).
    exact Hin.
Qed.

(** X3. [fetch] returns a nil error exactly when the request could be
    built, the client came back with a response, its status is 200 (the
    one status [logUpstreamError] lets pass; 204 or 201 are refused like
    404 or 500) and its body decoded into the destination; the value it
    hands back is then the decoded one. *)
Theorem X3_fetch_succeeds_exactly_when {T : Type} `{JSON.Unmarshal T}
  (w : World) (ctx : Context) (client : Client) (url : string)
  (result r : T) :
  fst (run (LinkedIn.fetch ctx client url result) w) = Done (r, None) <->
  exists (req : Request) (res : Response),
    NewRequestWithContext (TracerStart (reg (self w)) ctx fetchSpan)
      MethodGet url = inr req /\
    outcome (Do client req) = inr res /\
    StatusCode res = 200%Z /\
    JSON.Decode (ResponseBody res) result = (r, None).
Proof.
  rewrite fetch_run.
  destruct (NewRequestWithContext _ MethodGet url) as [err | req].
  { split; [intros Habs; discriminate Habs |].
    intros (req & res & Habs & _). discriminate Habs. }
  destruct (outcome (Do client req)) as [err | res] eqn:Hdo.
  { split; [intros Habs; discriminate Habs |].
    intros (req' & res & Hreq & Habs & _).
    injection Hreq as <-. rewrite Hdo in Habs. discriminate Habs. }
  destruct (isOK (StatusCode res)) eqn:Hstatus.
  - destruct (JSON.Decode (ResponseBody res) result) as [decoded [e |]]
      eqn:Hdecode.
    + split; [intros Habs; discriminate Habs |].
      intros (req' & res' & Hreq & Hres & _ & Hd).
      injection Hreq as <-. rewrite Hdo in Hres. injection Hres as <-.
      rewrite Hdecode in Hd. discriminate Hd.
    + split.
      * intros Heq. injection Heq as <-.
        exists req, res. repeat split; try assumption.
        now apply Z.eqb_eq.
      * intros (req' & res' & Hreq & Hres & _ & Hd).
        injection Hreq as <-. rewrite Hdo in Hres. injection Hres as <-.
        rewrite Hdecode in Hd. now injection Hd as <-.
  - split; [intros Habs; discriminate Habs |].
    intros (req' & res' & Hreq & Hres & Hs & _).
    injection Hreq as <-. rewrite Hdo in Hres. injection Hres as <-.
    apply isOK_200 in Hs. rewrite Hstatus in Hs. discriminate Hs.
Qed.

(** X4. [fetch] closes the body of every response it gets, once, as the
    last thing before its span ends, whether the status is refused, the
    body fails to decode or all goes well; when it gets no response (the
    request cannot be built, or the client comes back with an error) it
    closes nothing. *)
Theorem X4_fetch_closes_the_body {T : Type} `{JSON.Unmarshal T} (w : World)
  (ctx : Context) (client : Client) (url : string) (result : T) :
  exists events : list Event,
    snd (run (LinkedIn.fetch ctx client url result) w) = after w events /\
    (forall (req : Request) (res : Response),
        NewRequestWithContext (TracerStart (reg (self w)) ctx fetchSpan)
          MethodGet url = inr req ->
        outcome (Do client req) = inr res ->
        exists (before : list Event) (err : option error),
          events = (before ++ [BodyClosed; SpanEnded fetchSpan err])%list /\
          closings before = 0%nat) /\
    ((forall (req : Request) (res : Response),
         NewRequestWithContext (TracerStart (reg (self w)) ctx fetchSpan)
           MethodGet url = inr req ->
         outcome (Do client req) <> inr res) ->
     closings events = 0%nat).
Proof.
  rewrite fetch_run.
  destruct (NewRequestWithContext _ MethodGet url) as [err | req].
  { eexists. split; [reflexivity |]. split.
    - intros req res Habs. discriminate Habs.
    - reflexivity. }
  destruct (outcome (Do client req)) as [err | res] eqn:Hdo.
  { eexists. split; [reflexivity |]. split.
    - intros req' res Hreq Habs. injection Hreq as <-.
      rewrite Hdo in Habs. discriminate Habs.
    - reflexivity. }
  destruct (isOK (StatusCode res)).
  - destruct (JSON.Decode (ResponseBody res) result) as [decoded [e |]].
    + eexists. split; [reflexivity |]. split.
      * intros _ _ _ _.
        exists [SpanStarted fetchSpan;
                RoundTrip req (attempts (Do client req)); BodyDecoded].
        eexists. split; reflexivity.
      * intros Hnone. elim (Hnone req res eq_refl Hdo).
    + eexists. split; [reflexivity |]. split.
      * intros _ _ _ _.
        exists [SpanStarted fetchSpan;
                RoundTrip req (attempts (Do client req)); BodyDecoded].
        eexists. split; reflexivity.
      * intros Hnone. elim (Hnone req res eq_refl Hdo).
  - eexists. split; [reflexivity |]. split.
    + intros _ _ _ _.
      exists [SpanStarted fetchSpan;
              RoundTrip req (attempts (Do client req));
              UpstreamLogged (StatusCode res)].
      eexists. split; reflexivity.
    + intros Hnone. elim (Hnone req res eq_refl Hdo).
Qed.

(** X5. [fetch] touches the destination only by decoding: when the body
    was not given to the decoder, the destination comes back as it was
    passed and the error is not nil; and the body is decoded only after
    the one round trip. *)
Theorem X5_fetch_destination {T : Type} `{JSON.Unmarshal T} (w : World)
  (ctx : Context) (client : Client) (url : string) (result : T) :
  exists (r : T) (err : option error) (events : list Event),
    run (LinkedIn.fetch ctx client url result) w =
      (Done (r, err), after w events) /\
    (decoded events = false -> r = result /\ err <> None) /\
    (decoded events = true ->
     roundTrips events = 1%nat /\ roundTrips (afterDecode events) = 0%nat).
Proof.
  rewrite fetch_run.
  destruct (NewRequestWithContext _ MethodGet url) as [err | req].
  { do 3 eexists. split; [reflexivity |]. split.
    - intros _. split; [reflexivity | discriminate].
    - intros Habs. discriminate Habs. }
  destruct (outcome (Do client req)) as [err | res].
  { do 3 eexists. split; [reflexivity |]. split.
    - intros _. split; [reflexivity | discriminate].
    - intros Habs. discriminate Habs. }
  destruct (isOK (StatusCode res)).
  - destruct (JSON.Decode (ResponseBody res) result) as [r [e |]];
      (do 3 eexists; split; [reflexivity |]; split;
       [intros Habs; discriminate Habs | intros _; split; reflexivity]).
  - do 3 eexists. split; [reflexivity |]. split.
    + intros _. split; [reflexivity | discriminate].
    + intros Habs. discriminate Habs.
Qed.

(** X6. [Profile] is [fetch] of [ProfileUrl] into a zero profile: it
    leaves the trace [fetch] leaves and starts no span of its own.  When
    [fetch] returns no error it returns the decoded profile; when
    [fetch] returns an error it returns that error with one more stack
    and a nil profile, so that a partly decoded profile never leaves
    it. *)
Theorem X6_Profile_is_fetch (w : World) (ctx : Context) (client : Client) :
  exists (r : LinkedInProfile) (err : option error),
    fst (run (LinkedIn.fetch ctx client ProfileUrl zeroProfile) w) =
      Done (r, err) /\
    fst (run (LinkedIn.Profile ctx client) w) =
      Done match err with
           | None => (Some r, None)
           | Some e => (None, Some (WithStack e))
           end /\
    snd (run (LinkedIn.Profile ctx client) w) =
      snd (run (LinkedIn.fetch ctx client ProfileUrl zeroProfile) w).
Proof.
  assert (Hbind : forall (A B : Type) (m : Prog A) (f : A -> Prog B) (v : World),
             run (bind m f) v =
               match run m v with
               | (Done a, v') => run (f a) v'
               | (Panicked, v') => (Panicked, v')
               end).
  { intros A B m f. induction m as [a | | X c k IH]; intros v; cbn.
    - reflexivity.
    - reflexivity.
    - destruct (exec c v) as [x v']. apply IH. }
  unfold LinkedIn.Profile. rewrite Hbind.
  destruct (fetch_returns w ctx client ProfileUrl zeroProfile)
    as (r & err & events & Hrun).
  rewrite Hrun. cbn [fst snd].
  exists r, err. split; [reflexivity |].
  destruct err as [e |]; split; reflexivity.
Qed.

End FetchProperties.

Section PayloadProperties.

Context {TY : Types} {R : Runtime}.

(** One member at a time: the first tag the key matches decides, and
    no other tag matches that key. *)
Ltac by_first_tag t k :=
  repeat match goal with
         | |- context [if JSON.keyIs ?tag k then _ else _] =>
           let K := fresh "K" in
           destruct (JSON.keyIs tag k) eqn:K;
           [ try rewrite (keyIs_exclusive tag t k K eq_refl);
             cbv beta iota
           | cbv beta iota ]
         end.

Lemma decodeProfileMember_string
  (p : LinkedInProfile) (err : option JSON.DecodeError)
  (kv : string * JSON.json) :
  ID (fst (decodeProfileMember (p, err) kv)) = stringStep "sub" (ID p) kv /\
  EmailAddress (fst (decodeProfileMember (p, err) kv)) =
    stringStep "email" (EmailAddress p) kv /\
  LocalizedFirstName (fst (decodeProfileMember (p, err) kv)) =
    stringStep "given_name" (LocalizedFirstName p) kv /\
  LocalizedLastName (fst (decodeProfileMember (p, err) kv)) =
    stringStep "family_name" (LocalizedLastName p) kv /\
  ProfilePicture (fst (decodeProfileMember (p, err) kv)) =
    stringStep "picture" (ProfilePicture p) kv.
Proof.
  destruct kv as [k v].
  repeat split; unfold decodeProfileMember, stringStep; cbn [fst snd].
  - by_first_tag "sub" k; try (destruct v; reflexivity).
    now destruct (storeLocale v (Locale p)).
  - by_first_tag "email" k; try (destruct v; reflexivity).
    now destruct (storeLocale v (Locale p)).
  - by_first_tag "given_name" k; try (destruct v; reflexivity).
    now destruct (storeLocale v (Locale p)).
  - by_first_tag "family_name" k; try (destruct v; reflexivity).
    now destruct (storeLocale v (Locale p)).
  - by_first_tag "picture" k; try (destruct v; reflexivity).
    now destruct (storeLocale v (Locale p)).
Qed.

(** Folding a step that each member obeys. *)
Lemma decodeProfile_field {A : Type} (get : LinkedInProfile -> A)
  (step : A -> string * JSON.json -> A) :
  (forall p err kv,
      get (fst (decodeProfileMember (p, err) kv)) = step (get p) kv) ->
  forall (members : list (string * JSON.json))
         (st : LinkedInProfile * option JSON.DecodeError),
    get (fst (fold_left decodeProfileMember members st)) =
      fold_left step members (get (fst st)).
Proof.
  intros Hstep members.
  induction members as [| kv rest IH]; intros [p err].
  - reflexivity.
  - cbn [fold_left]. rewrite IH. f_equal. apply Hstep.
Qed.

Lemma decodeLocale_language (inner : list (string * JSON.json))
  (st : LinkedInLocale * option JSON.DecodeError) :
  Lanuguage (fst (fold_left decodeLocaleMember inner st)) =
    fold_left (stringStep "language") inner (Lanuguage (fst st)).
Proof.
  revert st. induction inner as [| [k v] rest IH]; intros [loc e].
  - reflexivity.
  - cbn [fold_left]. rewrite IH. f_equal.
    unfold decodeLocaleMember, stringStep. cbn [fst snd].
    destruct (JSON.keyIs "language" k); [| reflexivity].
    destruct v; reflexivity.
Qed.

Lemma decodeProfileMember_locale
  (p : LinkedInProfile) (err : option JSON.DecodeError)
  (kv : string * JSON.json) :
  ClaimsLocale (claimsOf (fst (decodeProfileMember (p, err) kv))) =
    localeStep (ClaimsLocale (claimsOf p)) kv.
Proof.
  destruct kv as [k v].
  unfold decodeProfileMember, localeStep; cbn [fst snd].
  by_first_tag "locale" k; try (destruct v; reflexivity).
  unfold storeLocale.
  destruct v; try (cbn; destruct (Locale p); reflexivity).
  pose proof (decodeLocale_language members
                (match Locale p with
                 | Some loc => loc
                 | None => zeroLocale
                 end, None)) as Hinner.
  destruct (fold_left decodeLocaleMember members _) as [loc e].
  cbn in Hinner |- *. rewrite Hinner.
  destruct (Locale p); reflexivity.
Qed.

(** The claims of a decoded payload are the claims the payload stands
    for. *)
Lemma claimsOf_Decode (members : list (string * JSON.json)) :
  claimsOf (fst (JSON.Decode (JSON.Value (JSON.Object members)) zeroProfile)) =
    claimsIn members.
Proof.
  cbn. unfold JSON.unmarshal, unmarshalProfile.
  set (st := (zeroProfile, @None JSON.DecodeError)).
  unfold claimsIn, stringIn, verifiedIn, localeIn.
  pose proof (fun p err kv => proj1 (decodeProfileMember_string p err kv))
    as Hsub.
  pose proof (fun p err kv =>
                proj1 (proj2 (decodeProfileMember_string p err kv)))
    as Hemail.
  pose proof (fun p err kv =>
                proj1 (proj2 (proj2 (decodeProfileMember_string p err kv))))
    as Hgiven.
  pose proof (fun p err kv =>
                proj1 (proj2 (proj2 (proj2
                  (decodeProfileMember_string p err kv)))))
    as Hfamily.
  pose proof (fun p err kv =>
                proj2 (proj2 (proj2 (proj2
                  (decodeProfileMember_string p err kv)))))
    as Hpicture.
  unfold claimsOf at 1. f_equal.
  - exact (decodeProfile_field ID _ Hsub members st).
  - exact (decodeProfile_field EmailAddress _ Hemail members st).
  - exact (decodeProfile_field LocalizedFirstName _ Hgiven members st).
  - exact (decodeProfile_field LocalizedLastName _ Hfamily members st).
  - exact (decodeProfile_field ProfilePicture _ Hpicture members st).
  - exact (decodeProfile_verified members st).
  - exact (decodeProfile_field (fun p => ClaimsLocale (claimsOf p)) _
             decodeProfileMember_locale members st).
Qed.

(** *** Which payloads decode *)

Lemma decodeLocaleMember_keeps_error (loc : LinkedInLocale)
  (e : JSON.DecodeError) (kv : string * JSON.json) :
  snd (decodeLocaleMember (loc, Some e) kv) = Some e.
Proof.
  destruct kv as [k v]. unfold decodeLocaleMember.
  destruct (JSON.keyIs "language" k); [| reflexivity].
  now destruct (JSON.storeString "locale.language" v (Lanuguage loc)).
Qed.

Lemma decodeLocale_error (inner : list (string * JSON.json))
  (loc : LinkedInLocale) :
  snd (fold_left decodeLocaleMember inner (loc, None)) = None <->
  forallb acceptableLanguage inner = true.
Proof.
  assert (Hkeep : forall inner loc e,
             snd (fold_left decodeLocaleMember inner (loc, Some e)) = Some e).
  { intros inner'. induction inner' as [| kv rest IH]; intros loc' e.
    - reflexivity.
    - cbn [fold_left].
      pose proof (decodeLocaleMember_keeps_error loc' e kv) as Hk.
      destruct (decodeLocaleMember (loc', Some e) kv) as [loc'' e'].
      cbn in Hk. subst e'. apply IH. }
  revert loc. induction inner as [| [k v] rest IH]; intros loc.
  - cbn. tauto.
  - cbn [fold_left forallb].
    unfold decodeLocaleMember at 2. unfold acceptableLanguage at 1.
    cbn [fst snd].
    destruct (JSON.keyIs "language" k).
    + destruct v; cbn [JSON.storeString JSON.saveError stringOrNull andb];
        try apply IH;
        (rewrite Hkeep; split; intros Habs; discriminate Habs).
    + cbn [andb]. apply IH.
Qed.

Lemma decodeProfileMember_error (p : LinkedInProfile)
  (kv : string * JSON.json) :
  snd (decodeProfileMember (p, None) kv) = None <-> acceptable kv = true.
Proof.
  destruct kv as [k v].
  unfold decodeProfileMember, acceptable; cbn [fst snd].
  by_first_tag "" k;
    try (destruct v; cbn; split; intros Habs;
         first [reflexivity | discriminate Habs]).
  unfold storeLocale.
    destruct v;
      try (cbn; split; intros Habs; first [reflexivity | discriminate Habs]).
    pose proof (decodeLocale_error members
                  (match Locale p with
                   | Some loc => loc
                   | None => zeroLocale
                   end)) as Hinner.
    destruct (fold_left decodeLocaleMember members _) as [loc e].
    exact Hinner.
Qed.

Lemma decodeProfile_error (members : list (string * JSON.json))
  (p : LinkedInProfile) :
  snd (fold_left decodeProfileMember members (p, None)) = None <->
  forallb acceptable members = true.
Proof.
  revert p. induction members as [| kv rest IH]; intros p.
  - cbn. tauto.
  - cbn [fold_left forallb].
    pose proof (decodeProfileMember_error p kv) as Hkv.
    destruct (decodeProfileMember (p, None) kv) as [p' [e |]]; cbn in Hkv.
    + rewrite decodeProfile_keeps_error.
      destruct (acceptable kv); cbn [andb].
      * destruct Hkv as [_ Hkv]. discriminate (Hkv eq_refl).
      * split; intros Habs; discriminate Habs.
    + destruct Hkv as [Hkv _]. rewrite (Hkv eq_refl). cbn [andb]. apply IH.
Qed.

End PayloadProperties.

Section ClaimsMore.

Context {TY : Types} {R : Runtime}.

(** The five paths of [Claims], with what decides each. *)
Lemma Claims_cases (w : World) (ctx : Context) (exchange : Token)
  (query : Values) :
  (exists err : error,
      profileRequest (self w) ctx exchange = inl err /\
      run (LinkedIn.Claims ctx exchange query) w =
        (Done (None, Some (internal (WithStack (WithStack err)))),
         after w (eventsNoRequest err))) \/
  (exists (req : Request) (n : nat) (err : error),
      endpointAnswers (self w) ctx exchange req n (inl err) /\
      run (LinkedIn.Claims ctx exchange query) w =
        (Done (None, Some (internal (WithStack (WithStack err)))),
         after w (eventsNoResponse req n err))) \/
  (exists (req : Request) (n : nat) (res : Response),
      endpointAnswers (self w) ctx exchange req n (inr res) /\
      isOK (StatusCode res) = false /\
      run (LinkedIn.Claims ctx exchange query) w =
        (Done (None,
               Some (internal (WithStack (ErrUpstream (StatusCode res))))),
         after w (eventsBadStatus req n (StatusCode res)))) \/
  (exists (req : Request) (n : nat) (res : Response) (p : LinkedInProfile)
          (e : JSON.DecodeError),
      endpointAnswers (self w) ctx exchange req n (inr res) /\
      isOK (StatusCode res) = true /\
      JSON.Decode (ResponseBody res) zeroProfile = (p, Some e) /\
      run (LinkedIn.Claims ctx exchange query) w =
        (Done (None, Some (internal (WithStack (WithStack (ErrDecode e))))),
         after w (eventsBadBody req n e))) \/
  (exists (req : Request) (n : nat) (res : Response) (p : LinkedInProfile),
      endpointAnswers (self w) ctx exchange req n (inr res) /\
      isOK (StatusCode res) = true /\
      JSON.Decode (ResponseBody res) zeroProfile = (p, None) /\
      run (LinkedIn.Claims ctx exchange query) w =
        (Done (Some (claimsOf p), None), after w (eventsOk req n))).
Proof.
  destruct (profileRequest (self w) ctx exchange) as [err | req] eqn:Hreq.
  { left. exists err. split; [reflexivity |].
    exact (Claims_no_request w ctx exchange query err Hreq). }
  right.
  destruct (Do (snd (authenticated (self w) ctx exchange)) req)
    as [n out] eqn:Hdo.
  assert (H : endpointAnswers (self w) ctx exchange req n out)
    by (split; assumption).
  destruct out as [err | res].
  { left. exists req, n, err. split; [exact H |].
    exact (Claims_no_response w ctx exchange query req n err H). }
  right.
  destruct (isOK (StatusCode res)) eqn:Hstatus.
  2:{ left. exists req, n, res. split; [exact H |]. split; [exact Hstatus |].
      exact (Claims_bad_status w ctx exchange query req n res H Hstatus). }
  right.
  destruct (JSON.Decode (ResponseBody res) zeroProfile) as [p [e |]] eqn:Hd.
  - left. exists req, n, res, p, e. repeat split; try assumption.
    exact (Claims_bad_body w ctx exchange query req n res p e H Hstatus Hd).
  - right. exists req, n, res, p. repeat split; try assumption.
    exact (Claims_ok w ctx exchange query req n res p H Hstatus Hd).
Qed.

(** The request of [Claims] is a GET to [ProfileUrl]. *)
Lemma profileRequest_shape (l : ProviderLinkedIn) (ctx : Context)
  (exchange : Token) (req : Request) :
  profileRequest l ctx exchange = inr req ->
  Method req = "GET" /\ RequestURL req = ProfileUrl.
Proof.
  unfold profileRequest.
  destruct (authenticated l ctx exchange) as [ctx2 client].
  intros Hreq. apply NewRequestWithContext_shape in Hreq.
  destruct Hreq as (Hm & Hu & _). now split.
Qed.

(** X7. [Claims] never panics and returns either claims with a nil
    error, or no claims with an error: never both, never neither.  In
    particular the profile pointer it dereferences is never nil. *)
Theorem X7_Claims_claims_or_error (w : World) (ctx : Context)
  (exchange : Token) (query : Values) :
  (exists c : Claims,
      fst (run (LinkedIn.Claims ctx exchange query) w) = Done (Some c, None)) \/
  (exists err : error,
      fst (run (LinkedIn.Claims ctx exchange query) w) = Done (None, Some err)).
Proof.
  destruct (Claims_cases w ctx exchange query)
    as [(err & _ & Hrun)
       | [(req & n & err & _ & Hrun)
         | [(req & n & res & _ & _ & Hrun)
           | [(req & n & res & p & e & _ & _ & _ & Hrun)
             | (req & n & res & p & _ & _ & _ & Hrun)]]]];
    rewrite Hrun; cbn [fst]; eauto.
Qed.

(** X8. On every path [Claims] starts its span, then the span of
    [fetch]; the span of [fetch] ends before the span of [Claims], which
    ends last and records exactly the error [Claims] returns; no other
    span event lies between. *)
Theorem X8_Claims_spans_nest (w : World) (ctx : Context) (exchange : Token)
  (query : Values) :
  exists (result : option Claims * option error) (fetched : option error)
         (middle : list Event),
    run (LinkedIn.Claims ctx exchange query) w =
      (Done result,
       after w (SpanStarted claimsSpan :: SpanStarted fetchSpan ::
                middle ++ [SpanEnded fetchSpan fetched;
                           SpanEnded claimsSpan (snd result)])%list) /\
    existsb isSpanEvent middle = false.
Proof.
  destruct (Claims_cases w ctx exchange query)
    as [(err & _ & Hrun)
       | [(req & n & err & _ & Hrun)
         | [(req & n & res & _ & _ & Hrun)
           | [(req & n & res & p & e & _ & _ & _ & Hrun)
             | (req & n & res & p & _ & _ & _ & Hrun)]]]];
    rewrite Hrun.
  - exists (None, Some (internal (WithStack (WithStack err)))),
      (Some (WithStack err)), []. split; reflexivity.
  - exists (None, Some (internal (WithStack (WithStack err)))),
      (Some (WithStack err)), [RoundTrip req n]. split; reflexivity.
  - exists (None, Some (internal (WithStack (ErrUpstream (StatusCode res))))),
      (Some (ErrUpstream (StatusCode res))),
      [RoundTrip req n; UpstreamLogged (StatusCode res); BodyClosed].
    split; reflexivity.
  - exists (None, Some (internal (WithStack (WithStack (ErrDecode e))))),
      (Some (WithStack (ErrDecode e))),
      [RoundTrip req n; BodyDecoded; BodyClosed].
    split; reflexivity.
  - exists (Some (claimsOf p), None), None,
      [RoundTrip req n; BodyDecoded; BodyClosed].
    split; reflexivity.
Qed.

(** X9. [Claims] sends one request at most, and every request it sends
    is a GET to [ProfileUrl]; it never calls the introspection
    endpoint. *)
Theorem X9_Claims_one_request (w : World) (ctx : Context) (exchange : Token)
  (query : Values) :
  exists events : list Event,
    snd (run (LinkedIn.Claims ctx exchange query) w) = after w events /\
    (length (requestsOf events) <= 1)%nat /\
    (forall req : Request,
        In req (requestsOf events) ->
        Method req = "GET" /\
        RequestURL req = ProfileUrl /\
        RequestURL req <> IntrospectionURL).
Proof.
  assert (Hurl : ProfileUrl <> IntrospectionURL) by discriminate.
  destruct (Claims_cases w ctx exchange query)
    as [(err & _ & Hrun)
       | [(req & n & err & [Hreq _] & Hrun)
         | [(req & n & res & [Hreq _] & _ & Hrun)
           | [(req & n & res & p & e & [Hreq _] & _ & _ & Hrun)
             | (req & n & res & p & [Hreq _] & _ & _ & Hrun)]]]];
    rewrite Hrun; cbn [snd]; eexists; (split; [reflexivity |]);
    try (apply profileRequest_shape in Hreq; destruct Hreq as [Hm Hu]);
    cbn; (split; [lia |]).
  - intros req [].
  - intros r [<- | []]. rewrite Hu. repeat split; assumption.
  - intros r [<- | []]. rewrite Hu. repeat split; assumption.
  - intros r [<- | []]. rewrite Hu. repeat split; assumption.
  - intros r [<- | []]. rewrite Hu. repeat split; assumption.
Qed.

(** X10. When the client comes back with an error instead of a
    response, [Claims] returns no claims but the internal-server error
    whose reason is the text of the client's error, the two stacks put
    on it on the way leaving the text as it is; one request was sent, no
    body was decoded and none was closed. *)
Theorem X10_Claims_client_error (w : World) (ctx : Context)
  (exchange : Token) (query : Values) (req : Request) (n : nat)
  (err : error) :
  endpointAnswers (self w) ctx exchange req n (inl err) ->
  exists (events : list Event) (d : DefaultError),
    run (LinkedIn.Claims ctx exchange query) w =
      (Done (None, Some (WithStack (ErrHerodot d))), after w events) /\
    ReasonField d = Error err /\
    ErrorField d = ErrorField ErrInternalServerError /\
    requestsOf events = [req] /\
    decoded events = false /\
    closings events = 0%nat.
Proof.
  intros H.
  rewrite (Claims_no_response w ctx exchange query req n err H).
  do 2 eexists. split; [reflexivity |]. repeat split.
Qed.

(** X11. [Claims] returns claims exactly when the request could be
    built, the client came back with a response whose status is 200 (the
    one status [logUpstreamError] lets pass), and the body decoded into
    a profile; the claims
    are then that profile field by field, with the constant issuer and
    the language of the locale, or the empty string without one. *)
Theorem X11_Claims_succeeds_exactly_when (w : World) (ctx : Context)
  (exchange : Token) (query : Values) (c : Claims) :
  fst (run (LinkedIn.Claims ctx exchange query) w) = Done (Some c, None) <->
  exists (req : Request) (n : nat) (res : Response) (p : LinkedInProfile),
    endpointAnswers (self w) ctx exchange req n (inr res) /\
    StatusCode res = 200%Z /\
    JSON.Decode (ResponseBody res) zeroProfile = (p, None) /\
    c = {| Subject := ID p;
           Issuer := "https://login.linkedin.com/";
           Email := EmailAddress p;
           GivenName := LocalizedFirstName p;
           LastName := LocalizedLastName p;
           Picture := ProfilePicture p;
           ClaimsEmailVerified := EmailVerified p;
           ClaimsLocale :=
             match Locale p with
             | None => ""
             | Some locale => Lanuguage locale
             end |}.
Proof.
  split.
  - intros Hc.
    destruct (Claims_cases w ctx exchange query)
      as [(err & _ & Hrun)
         | [(req & n & err & _ & Hrun)
           | [(req & n & res & _ & _ & Hrun)
             | [(req & n & res & p & e & _ & _ & _ & Hrun)
               | (req & n & res & p & H & Hs & Hd & Hrun)]]]];
      rewrite Hrun in Hc; cbn [fst] in Hc; try discriminate Hc.
    injection Hc as <-. exists req, n, res, p.
    split; [exact H |]. split; [now apply Z.eqb_eq |].
    split; [exact Hd | reflexivity].
  - intros (req & n & res & p & H & Hs & Hd & ->).
    now rewrite (Claims_ok w ctx exchange query req n res p H
                   (isOK_200 _ Hs) Hd).
Qed.

(** X12. For every payload the profile endpoint answers with HTTP 200
    whose recognised members all have a type the profile takes, [Claims]
    returns the claims the payload stands for: under each key the last
    string given (the empty string if none), for [email_verified] the
    last boolean given ([false] if none), for the locale the language of
    the object under [locale]; [null] under a key leaves what was there,
    and [null] under [locale] clears the language. *)
Theorem X12_Claims_of_payload (w : World) (ctx : Context) (exchange : Token)
  (query : Values) (req : Request) (n : nat)
  (members : list (string * JSON.json)) :
  endpointAnswers (self w) ctx exchange req n
    (inr {| StatusCode := 200;
            ResponseBody := JSON.Value (JSON.Object members) |}) ->
  forallb acceptable members = true ->
  fst (run (LinkedIn.Claims ctx exchange query) w) =
    Done (Some (claimsIn members), None).
Proof.
  intros H Hok.
  destruct (JSON.Decode (JSON.Value (JSON.Object members)) zeroProfile)
    as [p e] eqn:Hd.
  assert (He : e = None).
  { apply (decodeProfile_error members zeroProfile) in Hok.
    change (snd (JSON.Decode (JSON.Value (JSON.Object members)) zeroProfile)
            = None) in Hok.
    now rewrite Hd in Hok. }
  subst e.
  rewrite (Claims_ok w ctx exchange query req n _ p H eq_refl Hd).
  cbn [fst]. rewrite <- claimsOf_Decode, Hd. reflexivity.
Qed.

(** X13. For every payload the profile endpoint answers with HTTP 200,
    [Claims] returns claims exactly when every member under a recognised
    key has a type the profile takes; one member of another type (a
    number under [sub], a string under [email_verified] or under
    [locale], ...) makes the whole call fail with the internal-server
    error for a decode error, whatever the other members are. *)
Theorem X13_Claims_needs_typed_members (w : World) (ctx : Context)
  (exchange : Token) (query : Values) (req : Request) (n : nat)
  (members : list (string * JSON.json)) :
  endpointAnswers (self w) ctx exchange req n
    (inr {| StatusCode := 200;
            ResponseBody := JSON.Value (JSON.Object members) |}) ->
  ((exists c : Claims,
       fst (run (LinkedIn.Claims ctx exchange query) w) =
         Done (Some c, None)) <->
   forallb acceptable members = true) /\
  (forallb acceptable members = false ->
   exists e : JSON.DecodeError,
     fst (run (LinkedIn.Claims ctx exchange query) w) =
       Done (None, Some (internal (WithStack (WithStack (ErrDecode e)))))).
Proof.
  intros H.
  pose proof (decodeProfile_error members zeroProfile) as Hiff.
  change (snd (JSON.Decode (JSON.Value (JSON.Object members)) zeroProfile)
          = None <-> forallb acceptable members = true) in Hiff.
  destruct (JSON.Decode (JSON.Value (JSON.Object members)) zeroProfile)
    as [p [e |]] eqn:Hd; cbn [snd] in Hiff.
  - rewrite (Claims_bad_body w ctx exchange query req n _ p e H eq_refl Hd).
    cbn [fst]. split.
    + split.
      * intros [c Hc]. discriminate Hc.
      * intros Hok. apply Hiff in Hok. discriminate Hok.
    + intros _. now exists e.
  - rewrite (Claims_ok w ctx exchange query req n _ p H eq_refl Hd).
    cbn [fst]. split.
    + split.
      * intros _. now apply Hiff.
      * intros _. now exists (claimsOf p).
    + intros Hbad. rewrite (proj1 Hiff eq_refl) in Hbad. discriminate Hbad.
Qed.

(** Members under keys the profile does not know change nothing. *)
Lemma decodeProfile_filter (members : list (string * JSON.json))
  (st : LinkedInProfile * option JSON.DecodeError) :
  fold_left decodeProfileMember members st =
    fold_left decodeProfileMember
      (filter (fun kv => recognised (fst kv)) members) st.
Proof.
  revert st. induction members as [| [k v] rest IH]; intros st.
  - reflexivity.
  - cbn [fold_left filter fst].
    destruct (recognised k) eqn:Hk.
    + cbn [fold_left]. apply IH.
    + rewrite <- IH. f_equal.
      unfold recognised in Hk.
      repeat (apply orb_false_elim in Hk; destruct Hk as [Hk ?]).
      destruct st as [p err]. unfold decodeProfileMember.
      repeat match goal with
             | Hf : JSON.keyIs ?tag k = false |- _ => rewrite Hf; clear Hf
             end.
      reflexivity.
Qed.

(** A member counts through its folded key only. *)
Lemma decodeProfile_folded (l1 l2 : list (string * JSON.json))
  (st : LinkedInProfile * option JSON.DecodeError) :
  map (fun kv => (JSON.foldName (fst kv), snd kv)) l1 =
    map (fun kv => (JSON.foldName (fst kv), snd kv)) l2 ->
  fold_left decodeProfileMember l1 st = fold_left decodeProfileMember l2 st.
Proof.
  revert l2 st. induction l1 as [| [k1 v1] rest1 IH]; intros [| [k2 v2] rest2] st;
    cbn [map fst snd]; intros Heq; try discriminate Heq.
  - reflexivity.
  - injection Heq as Hk Hv Hrest. subst v2.
    cbn [fold_left].
    assert (Hsame : decodeProfileMember st (k1, v1) =
                    decodeProfileMember st (k2, v1)).
    { destruct st as [p err].
      unfold decodeProfileMember, JSON.keyIs. now rewrite Hk. }
    rewrite Hsame. now apply IH.
Qed.

(** X14. The answer of [Claims] depends on the payload only through its
    members under recognised keys, read up to the case folding of the
    keys: members under other keys (whatever their values), and the
    spelling of a key in upper or lower case, change neither the claims
    nor the error. *)
Theorem X14_Claims_ignores_unknown_members (w1 w2 : World)
  (ctx1 ctx2 : Context) (exchange1 exchange2 : Token)
  (query1 query2 : Values) (req1 req2 : Request) (n1 n2 : nat)
  (members1 members2 : list (string * JSON.json)) :
  endpointAnswers (self w1) ctx1 exchange1 req1 n1
    (inr {| StatusCode := 200;
            ResponseBody := JSON.Value (JSON.Object members1) |}) ->
  endpointAnswers (self w2) ctx2 exchange2 req2 n2
    (inr {| StatusCode := 200;
            ResponseBody := JSON.Value (JSON.Object members2) |}) ->
  canonical members1 = canonical members2 ->
  fst (run (LinkedIn.Claims ctx1 exchange1 query1) w1) =
    fst (run (LinkedIn.Claims ctx2 exchange2 query2) w2).
Proof.
  intros H1 H2 Hsame.
  assert (Hd : JSON.Decode (JSON.Value (JSON.Object members1)) zeroProfile =
               JSON.Decode (JSON.Value (JSON.Object members2)) zeroProfile).
  { cbn. unfold JSON.unmarshal, unmarshalProfile.
    rewrite (decodeProfile_filter members1), (decodeProfile_filter members2).
    now apply decodeProfile_folded. }
  destruct (JSON.Decode (JSON.Value (JSON.Object members2)) zeroProfile)
    as [p [e |]] eqn:Hd2.
  - rewrite (Claims_bad_body w1 ctx1 exchange1 query1 req1 n1 _ p e H1
               eq_refl Hd).
    now rewrite (Claims_bad_body w2 ctx2 exchange2 query2 req2 n2 _ p e H2
                   eq_refl Hd2).
  - rewrite (Claims_ok w1 ctx1 exchange1 query1 req1 n1 _ p H1 eq_refl Hd).
    now rewrite (Claims_ok w2 ctx2 exchange2 query2 req2 n2 _ p H2 eq_refl
                   Hd2).
Qed.

(** X15. The context of the caller reaches the request through every
    layer: [Claims] derives the context of its span from it, asks
    [OAuth2] for the settings under that context, lets [httpx.SetOAuth2]
    bind the HTTP client of the registry to these settings and to the
    exchanged token, and the request is built under the context
    [SetOAuth2] returns, inside the span of [fetch], and sent with the
    client [SetOAuth2] returns. *)
Theorem X15_Claims_threads_the_context (w : World) (ctx : Context)
  (exchange : Token) (query : Values) :
  let l := self w in
  let ctx1 := TracerStart (reg l) ctx claimsSpan in
  let settings := settingsOf l ctx1 in
  let bound :=
    SetOAuth2 ctx1 (HTTPClient (reg l) ctx1) (Some settings) exchange in
  fst (run (LinkedIn.OAuth2 ctx1) w) = Done (Some settings, None) /\
  exists events : list Event,
    snd (run (LinkedIn.Claims ctx exchange query) w) = after w events /\
    forall (req : Request) (n : nat),
      In (RoundTrip req n) events ->
      RequestContext req = TracerStart (reg l) (fst bound) fetchSpan /\
      n = attempts (Do (snd bound) req).
Proof.
  intros l ctx1 settings bound. split; [reflexivity |].
  assert (Hbound : bound = authenticated (self w) ctx exchange) by reflexivity.
  assert (Hshape : forall req n out,
             endpointAnswers (self w) ctx exchange req n out ->
             RequestContext req = TracerStart (reg l) (fst bound) fetchSpan /\
             n = attempts (Do (snd bound) req)).
  { intros req n out [Hreq Hdo]. rewrite Hbound. split.
    - unfold profileRequest in Hreq.
      destruct (authenticated (self w) ctx exchange) as [ctx2 client].
      apply NewRequestWithContext_shape in Hreq. now destruct Hreq as (_ & _ & ->).
    - now rewrite Hdo. }
  destruct (Claims_cases w ctx exchange query)
    as [(err & _ & Hrun)
       | [(req & n & err & H & Hrun)
         | [(req & n & res & H & _ & Hrun)
           | [(req & n & res & p & e & H & _ & _ & Hrun)
             | (req & n & res & p & H & _ & _ & Hrun)]]]];
    rewrite Hrun; cbn [snd]; eexists; (split; [reflexivity |]);
    intros r m Hin; cbn in Hin;
    repeat (destruct Hin as [Hin | Hin];
            [first [discriminate Hin
                   | injection Hin as <- <-; exact (Hshape _ _ _ H)] |]);
    destruct Hin.
Qed.

(** X16. A payload that is valid JSON but not an object: for [null] the
    decoder leaves the zero profile as it is and [Claims] returns claims
    that are empty but for the issuer; for a string, a number, a
    boolean or an array the decoder reports a type error and [Claims]
    returns no claims but the internal-server error for it. *)
Theorem X16_Claims_of_a_value_that_is_no_object (w : World) (ctx : Context)
  (exchange : Token) (query : Values) (req : Request) (n : nat)
  (v : JSON.json) :
  endpointAnswers (self w) ctx exchange req n
    (inr {| StatusCode := 200; ResponseBody := JSON.Value v |}) ->
  JSON.kindOf v <> JSON.KObject ->
  fst (run (LinkedIn.Claims ctx exchange query) w) =
    match v with
    | JSON.Null =>
      Done (Some {| Subject := "";
                    Issuer := "https://login.linkedin.com/";
                    Email := "";
                    GivenName := "";
                    LastName := "";
                    Picture := "";
                    ClaimsEmailVerified := false;
                    ClaimsLocale := "" |},
            None)
    | _ =>
      Done (None,
            Some (internal
                    (WithStack (WithStack (ErrDecode
                       (JSON.UnmarshalTypeError (JSON.kindOf v) ""
                          JSON.GoStruct))))))
    end.
Proof.
  intros H Hkind.
  destruct v; try (elim Hkind; reflexivity);
    first
      [ now rewrite (Claims_ok w ctx exchange query req n _ zeroProfile H
                       eq_refl eq_refl)
      | now rewrite (Claims_bad_body w ctx exchange query req n _ zeroProfile
                       _ H eq_refl eq_refl) ].
Qed.

End ClaimsMore.

(** * More scenarios over the mocked upstream *)

(** Scenario of X10: the connection is refused. *)
Lemma X10_Claims_client_error_witness :
  let reply := Mock.unreachable "connection refused" in
  @endpointAnswers Mock.types Mock.runtime (Mock.provider reply)
    Mock.background "access-token" Mock.request 1
    (inl (ErrTransport "connection refused")) /\
  exists (events : list (@Event Mock.types)) (d : DefaultError),
    Mock.claims reply =
      (Done (None, Some (WithStack (ErrHerodot d))),
       after (Mock.world reply) events) /\
    ReasonField d = "connection refused" /\
    ErrorField d = "An internal server error occurred" /\
    requestsOf events = [Mock.request] /\
    decoded events = false /\
    closings events = 0%nat.
Proof.
  intros reply.
  assert (H : @endpointAnswers Mock.types Mock.runtime (Mock.provider reply)
                Mock.background "access-token" Mock.request 1
                (inl (ErrTransport "connection refused")))
    by (split; reflexivity).
  split; [exact H |].
  exact (@X10_Claims_client_error Mock.types Mock.runtime (Mock.world reply)
           Mock.background "access-token" [] Mock.request 1
           (ErrTransport "connection refused") H).
Defined.

(** Scenario of X12: the payload of the scenario, with [sub] given twice
    and [picture] given as [null]. *)
Lemma X12_Claims_of_payload_witness :
  let members :=
    ([("sub", JSON.Str "old"); ("picture", JSON.Null)] ++
     scenarioMembers (JSON.Bool true) ++
     [("picture", JSON.Null);
      ("locale", JSON.Object [("language", JSON.Str "en-US")])])%list in
  let reply := Mock.answers 200 (JSON.Value (JSON.Object members)) in
  @endpointAnswers Mock.types Mock.runtime (Mock.provider reply)
    Mock.background "access-token" Mock.request 1 (outcome reply) /\
  forallb acceptable members = true /\
  claimsIn members = scenarioClaims "en-US" /\
  fst (Mock.claims reply) = Done (Some (scenarioClaims "en-US"), None).
Proof.
  intros members reply.
  assert (H : @endpointAnswers Mock.types Mock.runtime (Mock.provider reply)
                Mock.background "access-token" Mock.request 1 (outcome reply))
    by (split; reflexivity).
  split; [exact H |]. split; [reflexivity |]. split; [reflexivity |].
  exact (@X12_Claims_of_payload Mock.types Mock.runtime (Mock.world reply)
           Mock.background "access-token" [] Mock.request 1 members
           H eq_refl).
Defined.

(** Scenario of X13: the locale given as a string. *)
Lemma X13_Claims_needs_typed_members_witness :
  let members :=
    (scenarioMembers (JSON.Bool true) ++
     [("locale", JSON.Str "en-US")])%list in
  let reply := Mock.answers 200 (JSON.Value (JSON.Object members)) in
  @endpointAnswers Mock.types Mock.runtime (Mock.provider reply)
    Mock.background "access-token" Mock.request 1 (outcome reply) /\
  forallb acceptable members = false /\
  exists e : JSON.DecodeError,
    fst (Mock.claims reply) =
      Done (None,
            Some (@internal Mock.types Mock.runtime
                    (WithStack (WithStack (ErrDecode e))))).
Proof.
  intros members reply.
  assert (H : @endpointAnswers Mock.types Mock.runtime (Mock.provider reply)
                Mock.background "access-token" Mock.request 1 (outcome reply))
    by (split; reflexivity).
  split; [exact H |]. split; [reflexivity |].
  exact (proj2
           (@X13_Claims_needs_typed_members Mock.types Mock.runtime
              (Mock.world reply) Mock.background "access-token" []
              Mock.request 1 members H)
           eq_refl).
Defined.

(** Scenario of X14: the payload of the scenario, and the same with the
    keys in upper case and two members LinkedIn also sends. *)
Lemma X14_Claims_ignores_unknown_members_witness :
  let members1 :=
    (scenarioMembers (JSON.Bool true) ++
     [("locale", JSON.Object [("language", JSON.Str "en-US")])])%list in
  let members2 :=
    [("name", JSON.Str "Ann Lee");
     ("SUB", JSON.Str "abc123");
     ("Email", JSON.Str "a@example.com");
     ("EMAIL_VERIFIED", JSON.Bool true);
     ("updated_at", JSON.Number "1700000000");
     ("Given_Name", JSON.Str "Ann");
     ("family_name", JSON.Str "Lee");
     ("PICTURE", JSON.Str "http://img");
     ("Locale", JSON.Object [("language", JSON.Str "en-US")])] in
  let reply1 := Mock.answers 200 (JSON.Value (JSON.Object members1)) in
  let reply2 := Mock.answers 200 (JSON.Value (JSON.Object members2)) in
  @endpointAnswers Mock.types Mock.runtime (Mock.provider reply1)
    Mock.background "access-token" Mock.request 1 (outcome reply1) /\
  @endpointAnswers Mock.types Mock.runtime (Mock.provider reply2)
    Mock.background "access-token" Mock.request 1 (outcome reply2) /\
  canonical members1 = canonical members2 /\
  fst (Mock.claims reply1) = fst (Mock.claims reply2).
Proof.
  intros members1 members2 reply1 reply2.
  assert (H1 : @endpointAnswers Mock.types Mock.runtime (Mock.provider reply1)
                 Mock.background "access-token" Mock.request 1
                 (outcome reply1))
    by (split; reflexivity).
  assert (H2 : @endpointAnswers Mock.types Mock.runtime (Mock.provider reply2)
                 Mock.background "access-token" Mock.request 1
                 (outcome reply2))
    by (split; reflexivity).
  split; [exact H1 |]. split; [exact H2 |]. split; [reflexivity |].
  exact (@X14_Claims_ignores_unknown_members Mock.types Mock.runtime
           (Mock.world reply1) (Mock.world reply2)
           Mock.background Mock.background "access-token" "access-token"
           [] [] Mock.request Mock.request 1 1 members1 members2
           H1 H2 eq_refl).
Defined.

(** Scenario of X16: the body [null], and the body [[]]. *)
Lemma X16_Claims_of_a_value_that_is_no_object_witness :
  let reply := Mock.answers 200 (JSON.Value (JSON.Array [])) in
  @endpointAnswers Mock.types Mock.runtime (Mock.provider reply)
    Mock.background "access-token" Mock.request 1 (outcome reply) /\
  JSON.kindOf (JSON.Array []) <> JSON.KObject /\
  fst (Mock.claims reply) =
    Done (None,
          Some (WithStack (ErrHerodot
                  (WithReason Mock.internalServerError
                     "json: cannot unmarshal into field ")))).
Proof.
  intros reply.
  assert (H : @endpointAnswers Mock.types Mock.runtime (Mock.provider reply)
                Mock.background "access-token" Mock.request 1 (outcome reply))
    by (split; reflexivity).
  assert (Hkind : JSON.kindOf (JSON.Array []) <> JSON.KObject)
    by discriminate.
  split; [exact H |]. split; [exact Hkind |].
  exact (@X16_Claims_of_a_value_that_is_no_object Mock.types Mock.runtime
           (Mock.world reply) Mock.background "access-token" []
           Mock.request 1 (JSON.Array []) H Hkind).
Defined.
